(** * demo_hello_llm: the E2E Networks LLM wrappers

    A shallow embedding of [llm_wrapper.py] (class [E2ENetworksLLM] and
    [create_e2e_llm]) and of the wrapper class [E2ELLM] of [app.py],
    with the properties of the request payload, of the response
    normaliser, of the error handling of a call and of batch generation.

    Python values are a first-order datatype, exceptions are an error
    monad, the HTTP transport ([requests.post]) is a state-passing oracle.
    Logging has no effect on results and is left out.  The classes of
    LangChain are pydantic models: what their initialisers check of the
    fields is modelled where the two modules call them.  In
    [llm_wrapper.py] the line [def __init__(l] does not parse; it is read
    as [def __init__(]. *)

From Stdlib Require Import List String Ascii ZArith Lia Bool Permutation.
From Stdlib Require Import DecimalString.
From Corelib Require Import PrimFloat.
Import ListNotations.
Open Scope string_scope.
Open Scope Z_scope.

Set Warnings "-inexact-float,-register-all".

(** ** Python values and exceptions *)

Module Py.

(** What [json.loads] can return and what a payload can hold.  A [str] is
    a [string] with one character per code point (code points below 256);
    a [dict] keeps its insertion order and has [str] keys. *)
Inductive value : Type :=
| VNone
| VBool (b : bool)
| VInt (z : Z)
| VFloat (f : float)
| VStr (s : string)
| VList (l : list value)
| VDict (d : list (string * value)).

Definition dict : Type := list (string * value).

(** The exceptions the two modules can meet.  [HTTPError] carries the
    [status_code] and [text] of its [response]; [RequestsJSONDecodeError]
    is [requests.exceptions.JSONDecodeError], a subclass of both
    [RequestException] and [json.JSONDecodeError]; [RequestException]
    stands for the remaining classes of [requests.exceptions],
    [ValidationError] is pydantic's, and [OtherException] stands for
    every other subclass of [Exception]. *)
Inductive exn : Type :=
| TypeError (msg : string)
| KeyError (key : string)
| ValueError (msg : string)
| AttributeError (msg : string)
| Timeout (msg : string)
| HTTPError (msg : string) (status_code : Z) (text : string)
| RequestException (msg : string)
| RequestsJSONDecodeError (msg : string)
| JSONDecodeError (msg : string)
| ValidationError (msg : string)
| OtherException (msg : string).

Inductive result (A : Type) : Type :=
| Return (a : A)
| Raise (e : exn).
Arguments Return {A} a.
Arguments Raise {A} e.

Definition bind {A B : Type} (m : result A) (k : A -> result B) : result B :=
  match m with
  | Return a => k a
  | Raise e => Raise e
  end.

Notation "x <- m ;; k" := (bind m (fun x => k))
  (at level 61, m at next level, right associativity).

(** *** Dictionaries *)

Fixpoint dict_get (d : dict) (key : string) : option value :=
  match d with
  | [] => None
  | (k, v) :: rest => if String.eqb k key then Some v else dict_get rest key
  end.

(** [key in d] *)
Definition dict_in (key : string) (d : dict) : bool :=
  match dict_get d key with Some _ => true | None => false end.

(** [d.get(key, default)] *)
Definition dict_get_default (d : dict) (key : string) (default : value) : value :=
  match dict_get d key with Some v => v | None => default end.

(** [d[key] = v]: the value is replaced where the key stands, a new key
    goes to the end. *)
Fixpoint dict_set (d : dict) (key : string) (v : value) : dict :=
  match d with
  | [] => [(key, v)]
  | (k, w) :: rest =>
      if String.eqb k key then (k, v) :: rest else (k, w) :: dict_set rest key v
  end.

Definition in_list (key : string) (l : list string) : bool :=
  existsb (String.eqb key) l.

(** *** Strings *)

(** [sub in s] for two strings. *)
Fixpoint contains (sub s : string) : bool :=
  if String.prefix sub s then true
  else match s with
       | EmptyString => false
       | String _ rest => contains sub rest
       end.

Fixpoint has_char (c : ascii) (s : string) : bool :=
  match s with
  | EmptyString => false
  | String a rest => if Ascii.eqb a c then true else has_char c rest
  end.

Definition hex_digit (n : N) : ascii :=
  match n with
  | 0%N => "0" | 1%N => "1" | 2%N => "2" | 3%N => "3" | 4%N => "4"
  | 5%N => "5" | 6%N => "6" | 7%N => "7" | 8%N => "8" | 9%N => "9"
  | 10%N => "a" | 11%N => "b" | 12%N => "c" | 13%N => "d" | 14%N => "e"
  | _ => "f"
  end%char.

(** One character of [repr(s)], [quote] being the quote chosen for [s]. *)
Definition repr_char (quote c : ascii) : string :=
  let n := N_of_ascii c in
  if (Ascii.eqb c quote || Ascii.eqb c "\")%bool then String "\" (String c "")
  else if (n =? 9)%N then "\t"
  else if (n =? 10)%N then "\n"
  else if (n =? 13)%N then "\r"
  else if ((n <? 32) || ((127 <=? n) && (n <=? 160)) || (n =? 173))%N%bool
       then String "\" (String "x" (String (hex_digit (n / 16)) (String (hex_digit (n mod 16)) "")))
  else String c "".

Fixpoint repr_chars (quote : ascii) (s : string) : string :=
  match s with
  | EmptyString => ""
  | String c rest => repr_char quote c ++ repr_chars quote rest
  end.

(** [repr(s)] of a [str]: single quotes, unless [s] has a single quote
    and no double quote (character 34). *)
Definition repr_str (s : string) : string :=
  let quote := if (has_char "'" s && negb (has_char "034" s))%bool
               then "034"%char else "'"%char in
  String quote (repr_chars quote s ++ String quote "").

Definition str_int (z : Z) : string := NilZero.string_of_int (Z.to_int z).

Definition join (sep : string) (l : list string) : string := String.concat sep l.

Section Repr.

(** [repr] of a [float] is CPython's shortest round-trip printing; it is
    not computed here. *)
Variable float_repr : float -> string.

Fixpoint py_repr (v : value) : string :=
  match v with
  | VNone => "None"
  | VBool true => "True"
  | VBool false => "False"
  | VInt z => str_int z
  | VFloat f => float_repr f
  | VStr s => repr_str s
  | VList l => "[" ++ join ", " (map py_repr l) ++ "]"
  | VDict d =>
      "{" ++ join ", " (map (fun kv => repr_str (fst kv) ++ ": " ++ py_repr (snd kv)) d) ++ "}"
  end.

(** [str(v)] *)
Definition py_str (v : value) : string :=
  match v with
  | VStr s => s
  | _ => py_repr v
  end.

End Repr.

(** *** Membership and subscription by a [str] *)

Definition type_name (v : value) : string :=
  match v with
  | VNone => "NoneType"
  | VBool _ => "bool"
  | VInt _ => "int"
  | VFloat _ => "float"
  | VStr _ => "str"
  | VList _ => "list"
  | VDict _ => "dict"
  end.

Definition is_str (key : string) (v : value) : bool :=
  match v with
  | VStr s => String.eqb s key
  | _ => false
  end.

(** [key in v] for a [str] key: key membership on a [dict], substring on
    a [str], element equality on a [list], [TypeError] on the rest. *)
Definition py_in (key : string) (v : value) : result bool :=
  match v with
  | VDict d => Return (dict_in key d)
  | VStr s => Return (contains key s)
  | VList l => Return (existsb (is_str key) l)
  | _ => Raise (TypeError ("argument of type '" ++ type_name v ++ "' is not iterable"))
  end.

(** [v[key]] for a [str] key. *)
Definition py_getitem (v : value) (key : string) : result value :=
  match v with
  | VDict d =>
      match dict_get d key with
      | Some x => Return x
      | None => Raise (KeyError key)
      end
  | VStr _ => Raise (TypeError "string indices must be integers")
  | VList _ => Raise (TypeError "list indices must be integers or slices, not str")
  | _ => Raise (TypeError ("'" ++ type_name v ++ "' object is not subscriptable"))
  end.

(** [str(e)] of an exception. *)
Definition exn_str (e : exn) : string :=
  match e with
  | KeyError key => repr_str key
  | TypeError msg | ValueError msg | AttributeError msg | Timeout msg
  | HTTPError msg _ _ | RequestException msg | RequestsJSONDecodeError msg
  | JSONDecodeError msg | ValidationError msg | OtherException msg => msg
  end.

(** Passing [**kwargs] to a function whose parameters [names] are already
    bound: a key that names one of them is a [TypeError]. *)
Definition bind_kwargs (fname : string) (names : list string) (kwargs : dict)
  : result dict :=
  match find (fun kv => in_list (fst kv) names) kwargs with
  | Some kv =>
      Raise (TypeError (fname ++ "() got multiple values for argument '" ++ fst kv ++ "'"))
  | None => Return kwargs
  end.

(** No key of [kwargs] is one of [names]. *)
Definition kwargs_ok (names : list string) (kwargs : dict) : bool :=
  forallb (fun kv => negb (in_list (fst kv) names)) kwargs.

End Py.

(** ** The HTTP transport

    [requests] is outside the repository.  A response is what the two
    modules read of it; [json] is the outcome of [response.json()]. *)

Module Requests.
Import Py.

Record response : Type := {
  status_code : Z;
  reason : string;
  url : string;
  text : string;
  json : result value
}.

Record request : Type := {
  req_url : string;
  req_headers : list (string * string);
  req_json : dict;
  req_timeout : Z
}.

(** [response.raise_for_status()]: [HTTPError] for a status from 400 to
    599, nothing otherwise. *)
Definition raise_for_status (r : response) : result unit :=
  if (400 <=? status_code r) && (status_code r <? 500) then
    Raise (HTTPError (str_int (status_code r) ++ " Client Error: " ++ reason r
                        ++ " for url: " ++ url r) (status_code r) (text r))
  else if (500 <=? status_code r) && (status_code r <? 600) then
    Raise (HTTPError (str_int (status_code r) ++ " Server Error: " ++ reason r
                        ++ " for url: " ++ url r) (status_code r) (text r))
  else Return tt.

End Requests.

(** ** llm_wrapper.py *)

Module E2ENetworksLLM.
Import Py Requests.

Record instance : Type := {
  endpoint_url : string;
  api_key : string;
  model_name : string;
  temperature : float;
  max_tokens : Z;
  top_p : float;
  timeout : Z
}.

(** [x or y] on an optional [str]: [x] when it is a non-empty string. *)
Definition py_or (x y : option string) : option string :=
  match x with
  | Some EmptyString | None => y
  | Some _ => x
  end.

(** The fields the class declares without a default. *)
Definition required_fields : list string := ["endpoint_url"; "api_key"].

(** [super().__init__( **kwargs)]: the initialiser of the pydantic model
    raises [ValidationError] when a required field is not among the
    keyword arguments it is given. *)
Definition base_init (kwargs : dict) : result unit :=
  match filter (fun f => negb (dict_in f kwargs)) required_fields with
  | [] => Return tt
  | missing_fields =>
      Raise (ValidationError
               (str_int (Z.of_nat (List.length missing_fields))
                ++ " validation errors for E2ENetworksLLM: "
                ++ join ", " missing_fields ++ ": field required"))
  end.

(** [__init__]; [env] is [os.getenv] and [kwargs] the keyword arguments
    beside the seven parameters. *)
Definition __init__ (env : string -> option string)
    (endpoint_url api_key : option string) (model_name : string)
    (temperature : float) (max_tokens : Z) (top_p : float) (timeout : Z)
    (kwargs : dict) : result instance :=
  kwargs <- bind_kwargs "__init__"
              ["self"; "endpoint_url"; "api_key"; "model_name"; "temperature";
               "max_tokens"; "top_p"; "timeout"] kwargs ;;
  _ <- base_init kwargs ;;
  let self_endpoint_url := py_or endpoint_url (env "E2E_ENDPOINT_URL") in
  let self_api_key := py_or api_key (env "E2E_API_KEY") in
  match self_endpoint_url with
  | None | Some EmptyString =>
      Raise (ValueError "E2E endpoint URL must be provided via parameter or E2E_ENDPOINT_URL environment variable")
  | Some the_url =>
      match self_api_key with
      | None | Some EmptyString =>
          Raise (ValueError "API key must be provided via parameter or E2E_API_KEY environment variable")
      | Some the_key =>
          Return {| endpoint_url := the_url; api_key := the_key;
                    model_name := model_name; temperature := temperature;
                    max_tokens := max_tokens; top_p := top_p; timeout := timeout |}
      end
  end.

(** [create_e2e_llm] hands its arguments to the constructor, the keyword
    arguments that name a parameter of the constructor as that
    parameter. *)
Definition create_e2e_llm (env : string -> option string)
    (endpoint_url api_key : option string) (model_name : string)
    (temperature : float) (max_tokens : Z) (top_p : float) (timeout : Z)
    (kwargs : dict) : result instance :=
  __init__ env endpoint_url api_key model_name temperature max_tokens top_p timeout
    kwargs.

Definition _get_headers (self : instance) : list (string * string) :=
  [("Content-Type", "application/json");
   ("Authorization", "Bearer " ++ api_key self);
   ("Accept", "application/json")].

(** [if stop:] *)
Definition truthy (stop : option (list string)) : bool :=
  match stop with
  | Some (_ :: _) => true
  | _ => false
  end.

Definition stop_value (stop : option (list string)) : value :=
  match stop with
  | Some l => VList (map VStr l)
  | None => VNone
  end.

(** One turn of the loop over [kwargs.items()]. *)
Definition add_extra (payload : dict) (kv : string * value) : dict :=
  let (key, v) := kv in
  if negb (dict_in key payload)
     && negb (in_list key ["temperature"; "max_tokens"; "top_p"])
  then dict_set payload key v
  else payload.

(** The body of [_build_payload], its parameters bound. *)
Definition build (self : instance) (prompt : string)
    (stop : option (list string)) (kwargs : dict) : dict :=
  let payload :=
    [("prompt", VStr prompt);
     ("temperature", dict_get_default kwargs "temperature" (VFloat (temperature self)));
     ("max_tokens", dict_get_default kwargs "max_tokens" (VInt (max_tokens self)));
     ("top_p", dict_get_default kwargs "top_p" (VFloat (top_p self)));
     ("model", VStr (model_name self))] in
  let payload := if truthy stop then dict_set payload "stop" (stop_value stop)
                 else payload in
  fold_left add_extra kwargs payload.

(** [self._build_payload(prompt, stop, **kwargs)] *)
Definition _build_payload (self : instance) (prompt : string)
    (stop : option (list string)) (kwargs : dict) : result dict :=
  kwargs <- bind_kwargs "_build_payload" ["self"; "prompt"; "stop"] kwargs ;;
  Return (build self prompt stop kwargs).

Definition text_fields : list string :=
  ["response"; "text"; "generated_text"; "output"; "completion"; "answer"; "result"].

Section Methods.

Variable float_repr : float -> string.

(** The OpenAI-style branch: [Some] what it returns, [None] when control
    falls out of the [if]. *)
Definition from_choices (result : value) : Py.result (option value) :=
  has_choices <- py_in "choices" result ;;
  if has_choices then
    choices <- py_getitem result "choices" ;;
    match choices with
    | VList (choice :: _) =>
        has_text <- py_in "text" choice ;;
        if has_text then
          t <- py_getitem choice "text" ;; Return (Some t)
        else
          has_message <- py_in "message" choice ;;
          if has_message then
            message <- py_getitem choice "message" ;;
            has_content <- py_in "content" message ;;
            if has_content then
              c <- py_getitem message "content" ;; Return (Some c)
            else Return None
          else Return None
    | _ => Return None
    end
  else Return None.

(** The loop over [text_fields]. *)
Fixpoint from_fields (fields : list string) (result : value)
  : Py.result (option value) :=
  match fields with
  | [] => Return None
  | field :: rest =>
      present <- py_in field result ;;
      if present then
        v <- py_getitem result field ;; Return (Some (VStr (py_str float_repr v)))
      else from_fields rest result
  end.

Definition _extract_generated_text (result : value) : Py.result value :=
  early <- from_choices result ;;
  match early with
  | Some generated => Return generated
  | None =>
      direct <- from_fields text_fields result ;;
      match direct with
      | Some generated => Return generated
      | None => Return (VStr (py_str float_repr result))
      end
  end.

(** [requests.post]: an oracle over the state of the outside world. *)
Variable world : Type.
Variable post : world -> request -> Py.result response * world.

(** The [try] block of [_call]. *)
Definition attempt (sent : Py.result response) : Py.result value :=
  response <- sent ;;
  _ <- raise_for_status response ;;
  result <- json response ;;
  _extract_generated_text result.

(** The [except] clauses of [_call], in their order. *)
Definition handle (self : instance) (e : exn) : value :=
  match e with
  | Timeout _ =>
      VStr ("Error: " ++ ("Request to E2E LLM timed out after "
                          ++ str_int (timeout self) ++ " seconds"))
  | HTTPError _ status text =>
      VStr ("Error: " ++ ("HTTP error " ++ str_int status ++ ": " ++ text))
  | RequestException _ | RequestsJSONDecodeError _ =>
      VStr ("Error: " ++ ("Request failed: " ++ exn_str e))
  | JSONDecodeError _ =>
      VStr ("Error: " ++ ("Failed to parse JSON response: " ++ exn_str e))
  | _ =>
      VStr ("Error: " ++ ("Unexpected error: " ++ exn_str e))
  end.

(** [self._call(prompt, stop, run_manager, **kwargs)]; [run_manager] is
    not used. *)
Definition _call (self : instance) (prompt : string)
    (stop : option (list string)) (kwargs : dict) (w : world)
  : Py.result value * world :=
  match bind_kwargs "_call" ["self"; "prompt"; "stop"; "run_manager"] kwargs with
  | Raise e => (Raise e, w)
  | Return kwargs =>
      let headers := _get_headers self in
      match _build_payload self prompt stop kwargs with
      | Raise e => (Raise e, w)
      | Return payload =>
          let (sent, w') :=
            post w {| req_url := endpoint_url self; req_headers := headers;
                      req_json := payload; req_timeout := timeout self |} in
          match attempt sent with
          | Return generated_text => (Return generated_text, w')
          | Raise e => (Return (handle self e), w')
          end
      end
  end.

Record Generation : Type := { text : value }.
Record LLMResult : Type := { generations : list (list Generation) }.

(** What the installed pydantic makes of a number or a boolean given for
    a [str] field: its [str()] under pydantic 1, nothing under
    pydantic 2. *)
Variable text_of_number : value -> option string.

(** [Generation(text=response)]: LangChain's [Generation] is a pydantic
    model whose [text] is a [str]; a string is taken as it is, [None], a
    list and a dict are refused with [ValidationError]. *)
Definition new_Generation (response : value) : Py.result Generation :=
  match response with
  | VStr s => Return {| text := VStr s |}
  | VBool _ | VInt _ | VFloat _ =>
      match text_of_number response with
      | Some s => Return {| text := VStr s |}
      | None =>
          Raise (ValidationError
                   "1 validation error for Generation: text: str type expected")
      end
  | VNone | VList _ | VDict _ =>
      Raise (ValidationError
               "1 validation error for Generation: text: str type expected")
  end.

(** The loop of [_generate], [generations] being the list built so far. *)
Fixpoint generate_loop (self : instance) (stop : option (list string))
    (kwargs : dict) (prompts : list string)
    (generations : list (list Generation)) (w : world)
  : Py.result (list (list Generation)) * world :=
  match prompts with
  | [] => (Return generations, w)
  | prompt :: rest =>
      match _call self prompt stop kwargs w with
      | (Raise e, w') => (Raise e, w')
      | (Return response, w') =>
          match new_Generation response with
          | Raise e => (Raise e, w')
          | Return generation =>
              generate_loop self stop kwargs rest
                (generations ++ [[ generation ]]) w'
          end
      end
  end.

(** [self._generate(prompts, stop, run_manager, **kwargs)] *)
Definition _generate (self : instance) (prompts : list string)
    (stop : option (list string)) (kwargs : dict) (w : world)
  : Py.result LLMResult * world :=
  match bind_kwargs "_generate" ["self"; "prompts"; "stop"; "run_manager"] kwargs with
  | Raise e => (Raise e, w)
  | Return kwargs =>
      match generate_loop self stop kwargs prompts [] w with
      | (Raise e, w') => (Raise e, w')
      | (Return generations, w') => (Return {| generations := generations |}, w')
      end
  end.

End Methods.

End E2ENetworksLLM.

(** ** app.py *)

Module E2ELLM.
Import Py Requests.

Record instance : Type := {
  endpoint_url : string;
  api_key : string;
  model_name : string;
  temperature : float;
  max_tokens : Z
}.

(** [os.getenv(name, default)] *)
Definition getenv (env : string -> option string) (name default : string) : string :=
  match env name with
  | Some s => s
  | None => default
  end.

(** [E2ELLM()]: the class defaults, the two credentials read from the
    environment; nothing is checked. *)
Definition __init__ (env : string -> option string) : instance :=
  {| endpoint_url := getenv env "E2E_ENDPOINT_URL" "";
     api_key := getenv env "E2E_API_KEY" "";
     model_name := "e2e-llm";
     temperature := 0.7%float;
     max_tokens := 1000 |}.

Definition headers_of (self : instance) : list (string * string) :=
  [("Content-Type", "application/json");
   ("Authorization", "Bearer " ++ api_key self)].

(** The payload literal of [_call]. *)
Definition payload_of (self : instance) (prompt : string)
    (stop : option (list string)) : dict :=
  [("prompt", VStr prompt);
   ("temperature", VFloat (temperature self));
   ("max_tokens", VInt (max_tokens self));
   ("stop", E2ENetworksLLM.stop_value stop)].

(** [result.get(key, default)]; only a [dict] has the method. *)
Definition py_get (result : value) (key : string) (default : value) : Py.result value :=
  match result with
  | VDict d => Return (dict_get_default d key default)
  | _ => Raise (AttributeError ("'" ++ type_name result ++ "' object has no attribute 'get'"))
  end.

Section Methods.

Variable world : Type.
Variable post : world -> request -> Py.result response * world.

(** The [try] block of [_call]. *)
Definition attempt (sent : Py.result response) : Py.result value :=
  response <- sent ;;
  _ <- raise_for_status response ;;
  result <- json response ;;
  inner <- py_get result "text" (VStr "No response received") ;;
  py_get result "response" inner.

(** [self._call(prompt, stop)]; further keyword arguments are accepted
    and not read.  The two [except] clauses in their order, every other
    exception leaves the method. *)
Definition _call (self : instance) (prompt : string)
    (stop : option (list string)) (w : world) : Py.result value * world :=
  let headers := headers_of self in
  let payload := payload_of self prompt stop in
  let (sent, w') :=
    post w {| req_url := endpoint_url self; req_headers := headers;
              req_json := payload; req_timeout := 30 |} in
  match attempt sent with
  | Return v => (Return v, w')
  | Raise e =>
      match e with
      | Timeout _ | HTTPError _ _ _ | RequestException _ | RequestsJSONDecodeError _ =>
          (Return (VStr ("Error calling E2E LLM: " ++ exn_str e)), w')
      | JSONDecodeError _ =>
          (Return (VStr ("Error parsing response: " ++ exn_str e)), w')
      | _ => (Raise e, w')
      end
  end.

(** [get_llm_response(prompt)], [llm] being [st.session_state.llm]. *)
Definition get_llm_response (llm : instance) (prompt : string) (w : world)
  : value * world :=
  match _call llm prompt None w with
  | (Return response, w') => (response, w')
  | (Raise e, w') => (VStr ("Error getting response: " ++ exn_str e), w')
  end.

End Methods.

End E2ELLM.

(** ** Instances used in the examples *)

(** An [E2ENetworksLLM] with the class defaults. *)
Definition default_llm : E2ENetworksLLM.instance :=
  {| E2ENetworksLLM.endpoint_url := "https://llm.example/v1/generate";
     E2ENetworksLLM.api_key := "secret";
     E2ENetworksLLM.model_name := "e2e-llm";
     E2ENetworksLLM.temperature := 0.7%float;
     E2ENetworksLLM.max_tokens := 1000;
     E2ENetworksLLM.top_p := 0.9%float;
     E2ENetworksLLM.timeout := 30 |}.

(** An environment with neither variable set. *)
Definition empty_env : string -> option string := fun _ => None.

(** A printing of floats for the closed examples, whose values hold no
    float. *)
Definition no_float_repr : float -> string := fun _ => "".

(** [s] between double quotes, as JSON text has it. *)
Definition quoted (s : string) : string :=
  String "034" (s ++ String "034" "").

(** A transport that plays a script: the outcomes of the requests to come,
    in order, and the requests received so far. *)
Definition script : Type := (list (Py.result Requests.response) * list Requests.request)%type.

Definition scripted_post (w : script) (rq : Requests.request)
  : Py.result Requests.response * script :=
  match fst w with
  | [] => (Py.Raise (Py.RequestException "connection refused"), ([], (snd w ++ [rq])%list))
  | outcome :: rest => (outcome, (rest, (snd w ++ [rq])%list))
  end.

(** A response with status 200 whose body parses to [body]. *)
Definition ok_response (body : Py.value) : Requests.response :=
  {| Requests.status_code := 200; Requests.reason := "OK";
     Requests.url := "https://llm.example/v1/generate";
     Requests.text := ""; Requests.json := Py.Return body |}.

(** Status 429 with the body [rate limited]. *)
Definition rate_limited : Requests.response :=
  {| Requests.status_code := 429; Requests.reason := "Too Many Requests";
     Requests.url := "https://llm.example/v1/generate";
     Requests.text := "rate limited";
     Requests.json :=
       Py.Raise (Py.RequestsJSONDecodeError "Expecting value: line 1 column 1 (char 0)") |}.

(** Status 300 with a JSON body that has a ["response"]. *)
Definition multiple_choices : Requests.response :=
  {| Requests.status_code := 300; Requests.reason := "Multiple Choices";
     Requests.url := "https://llm.example/v1/generate";
     Requests.text := "{" ++ quoted "response" ++ ": " ++ quoted "hi" ++ "}";
     Requests.json := Py.Return (Py.VDict [("response", Py.VStr "hi")]) |}.

(** A clock that always reads the same. *)
Definition fixed_clock (w : script) : string * script :=
  ("2024-05-01 12:00:00", w).

(** ** The vocabulary of the statements *)

Import Py Requests.

(** A credential that resolves to nothing: no value, or the empty
    string. *)
Definition absent (credential : option string) : bool :=
  match credential with
  | None | Some EmptyString => true
  | Some _ => false
  end.

(** What the payload holds under [key], [default] being the instance's
    value: the override when [kwargs] has one. *)
Definition override_or_default (kwargs payload : dict) (key : string)
    (default : value) : Prop :=
  match dict_get kwargs key with
  | Some v => dict_get payload key = Some v
  | None => dict_get payload key = Some default
  end.

(** The value of a field of an object; another value has no field. *)
Definition field (v : value) (key : string) : option value :=
  match v with
  | VDict d => dict_get d key
  | _ => None
  end.

Section Normalizer.

Variable float_repr : float -> string.

(** The first of [fields] present in the object, coerced to [str]. *)
Fixpoint first_present (fields : list string) (d : dict) : option value :=
  match fields with
  | [] => None
  | f :: rest =>
      match dict_get d f with
      | Some v => Some (VStr (py_str float_repr v))
      | None => first_present rest d
      end
  end.

(** Rules 2 and 3 of the normaliser: the first known field, else the
    whole object as a string. *)
Definition top_level (d : dict) : value :=
  match first_present E2ENetworksLLM.text_fields d with
  | Some generated => generated
  | None => VStr (py_str float_repr (VDict d))
  end.

(** Rule 1: what the first element of a non-empty ["choices"] list
    gives, its ["text"] before the ["content"] of its ["message"]. *)
Definition chosen (d : dict) : option value :=
  match dict_get d "choices" with
  | Some (VList (choice :: _)) =>
      match field choice "text" with
      | Some t => Some t
      | None =>
          match field choice "message" with
          | Some message => field message "content"
          | None => None
          end
      end
  | _ => None
  end.

(** The priority order as the specification words it. *)
Definition extract_spec (d : dict) : value :=
  match chosen d with
  | Some generated => generated
  | None => top_level d
  end.

End Normalizer.

Definition is_dict (v : value) : bool :=
  match v with
  | VDict _ => true
  | _ => false
  end.

(** The first element of a non-empty ["choices"] list is an object, and
    so is its ["message"] when it has one and no ["text"]. *)
Definition object_choice (d : dict) : bool :=
  match dict_get d "choices" with
  | Some (VList (VDict c :: _)) =>
      match dict_get c "text", dict_get c "message" with
      | None, Some message => is_dict message
      | _, _ => true
      end
  | Some (VList (_ :: _)) => false
  | _ => true
  end.

(** The request [E2ENetworksLLM._call] sends for a prompt. *)
Definition request_of (self : E2ENetworksLLM.instance) (prompt : string)
    (stop : option (list string)) (kwargs : dict) : request :=
  {| req_url := E2ENetworksLLM.endpoint_url self;
     req_headers := E2ENetworksLLM._get_headers self;
     req_json := E2ENetworksLLM.build self prompt stop kwargs;
     req_timeout := E2ENetworksLLM.timeout self |}.

(** The request [E2ELLM._call] sends for a prompt. *)
Definition app_request_of (self : E2ELLM.instance) (prompt : string)
    (stop : option (list string)) : request :=
  {| req_url := E2ELLM.endpoint_url self;
     req_headers := E2ELLM.headers_of self;
     req_json := E2ELLM.payload_of self prompt stop;
     req_timeout := 30 |}.

(** The message of the [Timeout] clause. *)
Definition timed_out (self : E2ENetworksLLM.instance) : string :=
  "Error: Request to E2E LLM timed out after "
  ++ str_int (E2ENetworksLLM.timeout self) ++ " seconds".

Section Batch.

Variable float_repr : float -> string.
Variable world : Type.
Variable post : world -> request -> Py.result response * world.
Variable self : E2ENetworksLLM.instance.
Variable stop : option (list string).
Variable kwargs : dict.


End Batch.

(** The rule of the choices finds nothing: ["choices"] is absent, is not
    a list, is empty, or its first element is an object that has no
    ["text"] and whose ["message"] is absent or is an object without
    ["content"]. *)
Definition choices_yield_nothing (d : dict) : bool :=
  match dict_get d "choices" with
  | Some (VList (VDict c :: _)) =>
      match dict_get c "text" with
      | Some _ => false
      | None =>
          match dict_get c "message" with
          | None => true
          | Some (VDict m) => negb (dict_in "content" m)
          | Some _ => false
          end
      end
  | Some (VList (_ :: _)) => false
  | _ => true
  end.


(** pydantic 2 on a number given for a [str] field: refused. *)
Definition strict_text : value -> option string := fun _ => None.


(** ** app.py: the session and the script

    [st.session_state] holds the two keys the script uses; a key is
    absent until it is assigned, and reading an absent one raises
    [AttributeError].  The widgets of a run are its inputs; what the page
    shows is its output; [datetime.now()] is read from the world. *)

Module App.

Record message : Type := {
  role : string;
  content : value;
  timestamp : string
}.

Record session_state : Type := {
  messages : option (list message);
  llm : option E2ELLM.instance
}.

(** The state of a new session. *)
Definition fresh : session_state := {| messages := None; llm := None |}.

(** Reading an absent key; the message is Streamlit's, cut after its
    second sentence. *)
Definition missing (key : string) : exn :=
  AttributeError ("st.session_state has no attribute " ++ quoted key
                  ++ ". Did you forget to initialize it?").

Definition initialize_session_state (env : string -> option string)
    (s : session_state) : session_state :=
  let s := match messages s with
           | None => {| messages := Some []; llm := llm s |}
           | Some _ => s
           end in
  match llm s with
  | None => {| messages := messages s; llm := Some (E2ELLM.__init__ env) |}
  | Some _ => s
  end.

(** What one chat message shows: the role, the text and the caption. *)
Definition shown : Type := (string * value * string)%type.

Definition show (m : message) : shown :=
  (role m, content m, "*" ++ timestamp m ++ "*").

Definition display_chat_messages (s : session_state) : Py.result (list shown) :=
  match messages s with
  | None => Raise (missing "messages")
  | Some ms => Return (map show ms)
  end.

(** [[msg for msg in messages if msg["role"] == r]], counted. *)
Definition count_role (r : string) (ms : list message) : nat :=
  List.length (filter (fun m => String.eqb (role m) r) ms).

(** The values of the widgets in one run of the script. *)
Record widgets : Type := {
  endpoint_url_input : string;
  api_key_input : string;
  temperature_slider : float;
  max_tokens_slider : Z;
  update_configuration : bool;
  clear_chat_history : bool;
  chat_input : option string
}.

(** What a run that reaches its end has shown: the three metrics (the
    two by role only for a history that is not empty) and the chat. *)
Record page : Type := {
  total_messages : nat;
  by_role : option (nat * nat);
  chat : list shown
}.

(** [st.rerun()] stops the run and asks for another. *)
Inductive outcome : Type :=
| Rerun
| Page (p : page).

Section Script.

Variable world : Type.
Variable post : world -> request -> Py.result response * world.
Variable now : world -> string * world.
Variable env : string -> option string.

(** [get_llm_response(prompt)]: the [try] covers the read of
    [st.session_state.llm] too. *)
Definition get_llm_response (s : session_state) (prompt : string) (w : world)
  : value * world :=
  match llm s with
  | Some the_llm => E2ELLM.get_llm_response world post the_llm prompt w
  | None => (VStr ("Error getting response: " ++ exn_str (missing "llm")), w)
  end.

(** The block under [if st.button("Update Configuration")]. *)
Definition update (ui : widgets) (s : session_state) : Py.result session_state :=
  match llm s with
  | None => Raise (missing "llm")
  | Some the_llm =>
      Return {| messages := messages s;
                llm := Some {| E2ELLM.endpoint_url := endpoint_url_input ui;
                               E2ELLM.api_key := api_key_input ui;
                               E2ELLM.model_name := E2ELLM.model_name the_llm;
                               E2ELLM.temperature := temperature_slider ui;
                               E2ELLM.max_tokens := max_tokens_slider ui |} |}
  end.

Definition append_message (m : message) (s : session_state) : session_state :=
  {| messages := match messages s with
                 | Some ms => Some (ms ++ [m])%list
                 | None => None
                 end;
     llm := llm s |}.

(** The block under [if prompt := st.chat_input(...)], the state being
    initialised. *)
Definition exchange (prompt : string) (s : session_state) (w : world)
  : list shown * session_state * world :=
  let (timestamp, w1) := now w in
  let user := {| role := "user"; content := VStr prompt; timestamp := timestamp |} in
  let s1 := append_message user s in
  let (response, w2) := get_llm_response s1 prompt w1 in
  let (response_timestamp, w3) := now w2 in
  let assistant := {| role := "assistant"; content := response;
                      timestamp := response_timestamp |} in
  ([show user; show assistant], append_message assistant s1, w3).

(** [main()]: one run of the script.  The session state is returned in
    every case: what a run assigned before it raised stays assigned. *)
Definition main (ui : widgets) (s : session_state) (w : world)
  : Py.result outcome * session_state * world :=
  match (if update_configuration ui then update ui s else Return s) with
  | Raise e => (Raise e, s, w)
  | Return s1 =>
      if clear_chat_history ui then
        (Return Rerun, {| messages := Some []; llm := llm s1 |}, w)
      else
        match messages s1 with
        | None => (Raise (missing "messages"), s1, w)
        | Some ms =>
            let total := List.length ms in
            let counts := match ms with
                          | [] => None
                          | _ => Some (count_role "user" ms, count_role "assistant" ms)
                          end in
            let s2 := initialize_session_state env s1 in
            match display_chat_messages s2 with
            | Raise e => (Raise e, s2, w)
            | Return history =>
                match chat_input ui with
                | Some (String c rest) =>
                    let '(said, s3, w') := exchange (String c rest) s2 w in
                    (Return (Page {| total_messages := total; by_role := counts;
                                     chat := (history ++ said)%list |}), s3, w')
                | _ =>
                    (Return (Page {| total_messages := total; by_role := counts;
                                     chat := history |}), s2, w)
                end
            end
        end
  end.

End Script.

(** The history is made of exchanges: a user message, then the
    assistant's. *)
Fixpoint paired (ms : list message) : bool :=
  match ms with
  | [] => true
  | u :: a :: rest =>
      String.eqb (role u) "user" && String.eqb (role a) "assistant" && paired rest
  | _ => false
  end.

End App.

(** ** More vocabulary *)

(** A transport that records, beside the world of [post], the requests it
    was given. *)
Definition logged {world : Type}
    (post : world -> request -> Py.result response * world)
    (wl : world * list request) (rq : request)
  : Py.result response * (world * list request) :=
  let (sent, w') := post (fst wl) rq in
  (sent, (w', (snd wl ++ [rq])%list)).

(** The payload of [_build_payload] as a map from keys. *)
Definition payload_at (self : E2ENetworksLLM.instance) (prompt : string)
    (stop : option (list string)) (kwargs : dict) (key : string) : option value :=
  if String.eqb key "prompt" then Some (VStr prompt)
  else if String.eqb key "temperature" then
    Some (dict_get_default kwargs "temperature" (VFloat (E2ENetworksLLM.temperature self)))
  else if String.eqb key "max_tokens" then
    Some (dict_get_default kwargs "max_tokens" (VInt (E2ENetworksLLM.max_tokens self)))
  else if String.eqb key "top_p" then
    Some (dict_get_default kwargs "top_p" (VFloat (E2ENetworksLLM.top_p self)))
  else if String.eqb key "model" then Some (VStr (E2ENetworksLLM.model_name self))
  else if String.eqb key "stop" then
    match stop with
    | Some (s :: l) => Some (VList (map VStr (s :: l)))
    | _ => None
    end
  else dict_get kwargs key.

(** The overrides that reach the payload as further fields. *)
Definition passes (kv : string * value) : bool :=
  negb (in_list (fst kv) ["temperature"; "max_tokens"; "top_p"; "model"]).

(** The history, when there is one, is made of exchanges. *)
Definition well_paired (s : App.session_state) : Prop :=
  match App.messages s with
  | Some ms => App.paired ms = true
  | None => True
  end.

(** The clock beside a record of requests. *)
Definition logged_now {world : Type} (now : world -> string * world)
    (wl : world * list request) : string * (world * list request) :=
  let (t, w') := now (fst wl) in (t, (w', snd wl)).

Section Runs.

Variable world : Type.
Variable post : world -> request -> Py.result response * world.
Variable now : world -> string * world.
Variable env : string -> option string.

(** One run of the script after another, each with its widgets. *)
Fixpoint run_all (uis : list App.widgets) (s : App.session_state) (w : world)
  : App.session_state * world :=
  match uis with
  | [] => (s, w)
  | ui :: rest =>
      let '(_, s', w') := App.main world post now env ui s w in
      run_all rest s' w'
  end.

End Runs.

(** Widgets left as they come up, nothing pressed and nothing typed. *)
Definition idle : App.widgets :=
  {| App.endpoint_url_input := ""; App.api_key_input := "";
     App.temperature_slider := 0.7; App.max_tokens_slider := 1000;
     App.update_configuration := false; App.clear_chat_history := false;
     App.chat_input := None |}.

(** The widgets with a prompt submitted. *)
Definition typing (prompt : string) (ui : App.widgets) : App.widgets :=
  {| App.endpoint_url_input := App.endpoint_url_input ui;
     App.api_key_input := App.api_key_input ui;
     App.temperature_slider := App.temperature_slider ui;
     App.max_tokens_slider := App.max_tokens_slider ui;
     App.update_configuration := App.update_configuration ui;
     App.clear_chat_history := App.clear_chat_history ui;
     App.chat_input := Some prompt |}.

(** A session that holds one exchange. *)
Definition greeted : App.session_state :=
  {| App.messages :=
       Some [ {| App.role := "user"; App.content := VStr "Hi";
                 App.timestamp := "2024-05-01 11:59:00" |};
              {| App.role := "assistant"; App.content := VStr "Hello!";
                 App.timestamp := "2024-05-01 11:59:01" |} ];
     App.llm := Some (E2ELLM.__init__ empty_env) |}.

(** A session that was initialised and has no message yet. *)
Definition started : App.session_state :=
  {| App.messages := Some []; App.llm := Some (E2ELLM.__init__ empty_env) |}.

(** * Properties *)

(** ** Dictionaries and keyword arguments *)

Lemma dict_get_set_same (d : dict) (k : string) (v : value) :
  dict_get (dict_set d k v) k = Some v.
Proof.
  induction d as [|[k' w] d IH]; simpl.
  - now rewrite String.eqb_refl.
  - destruct (String.eqb k' k) eqn:E; simpl; rewrite E; auto.
Qed.

Lemma dict_get_set_other (d : dict) (k k' : string) (v : value) :
  k' <> k -> dict_get (dict_set d k' v) k = dict_get d k.
Proof.
  intros Hne. induction d as [|[k0 w] d IH]; simpl.
  - destruct (String.eqb_spec k' k); congruence.
  - destruct (String.eqb_spec k0 k') as [->|Hk0]; simpl.
    + destruct (String.eqb_spec k' k); congruence.
    + now rewrite IH.
Qed.

Lemma dict_in_true (k : string) (d : dict) :
  dict_in k d = true <-> exists v, dict_get d k = Some v.
Proof.
  unfold dict_in. destruct (dict_get d k) as [v|].
  - split; eauto.
  - split; [discriminate | intros [v Hv]; discriminate].
Qed.

Lemma dict_in_false (k : string) (d : dict) :
  dict_in k d = false <-> dict_get d k = None.
Proof.
  unfold dict_in. destruct (dict_get d k); split; congruence.
Qed.

Lemma in_list_In (k : string) (l : list string) :
  in_list k l = true <-> In k l.
Proof.
  unfold in_list. rewrite existsb_exists. split.
  - intros [x [Hin Heq]]. apply String.eqb_eq in Heq. now subst.
  - intros Hin. exists k. split; [assumption | apply String.eqb_refl].
Qed.

Lemma kwargs_ok_get (names : list string) (kwargs : dict) (k : string) :
  kwargs_ok names kwargs = true -> in_list k names = true ->
  dict_get kwargs k = None.
Proof.
  unfold kwargs_ok. intros Hok Hk.
  induction kwargs as [|[k' v] kwargs IH]; simpl in *; [reflexivity|].
  apply andb_true_iff in Hok as [Hhd Htl].
  destruct (String.eqb_spec k' k) as [->|Hne]; [|auto].
  rewrite Hk in Hhd. discriminate.
Qed.

Lemma bind_kwargs_ok (fname : string) (names : list string) (kwargs : dict) :
  kwargs_ok names kwargs = true -> bind_kwargs fname names kwargs = Return kwargs.
Proof.
  unfold kwargs_ok, bind_kwargs. intros Hok.
  destruct (find _ kwargs) as [kv|] eqn:F; [|reflexivity].
  apply find_some in F as [Hin Hkv].
  rewrite forallb_forall in Hok. specialize (Hok kv Hin).
  rewrite Hkv in Hok. discriminate.
Qed.

Lemma bind_kwargs_clash (fname : string) (names : list string) (kwargs : dict) :
  kwargs_ok names kwargs = false ->
  exists msg, bind_kwargs fname names kwargs = Raise (TypeError msg).
Proof.
  unfold kwargs_ok, bind_kwargs. intros Hno.
  destruct (find _ kwargs) as [kv|] eqn:F; [eauto|].
  assert (forallb (fun kv => negb (in_list (fst kv) names)) kwargs = true) as Hall.
  { apply forallb_forall. intros kv Hin.
    now rewrite (find_none _ _ F kv Hin). }
  congruence.
Qed.

(** ** The loop over the extra keyword arguments *)

Lemma add_extra_keeps (payload : dict) (kv : string * value) (k : string) (v : value) :
  dict_get payload k = Some v -> dict_get (E2ENetworksLLM.add_extra payload kv) k = Some v.
Proof.
  intros Hk. destruct kv as [k' v']. unfold E2ENetworksLLM.add_extra.
  destruct (negb (dict_in k' payload)
            && negb (in_list k' ["temperature"; "max_tokens"; "top_p"])) eqn:Hadd;
    [|assumption].
  apply andb_true_iff in Hadd as [Hin _]. apply negb_true_iff, dict_in_false in Hin.
  rewrite dict_get_set_other; [assumption|]. congruence.
Qed.

Lemma add_extra_absent (payload : dict) (kv : string * value) (k : string) :
  dict_get payload k = None -> fst kv <> k ->
  dict_get (E2ENetworksLLM.add_extra payload kv) k = None.
Proof.
  intros Hk Hne. destruct kv as [k' v']. unfold E2ENetworksLLM.add_extra.
  destruct (negb (dict_in k' payload)
            && negb (in_list k' ["temperature"; "max_tokens"; "top_p"])); [|assumption].
  now rewrite dict_get_set_other.
Qed.

Lemma extras_keep (kwargs payload : dict) (k : string) (v : value) :
  dict_get payload k = Some v ->
  dict_get (fold_left E2ENetworksLLM.add_extra kwargs payload) k = Some v.
Proof.
  revert payload. induction kwargs as [|kv kwargs IH]; intros payload Hk; cbn [fold_left].
  - assumption.
  - apply IH. now apply add_extra_keeps.
Qed.

Lemma extras_absent (kwargs payload : dict) (k : string) :
  dict_get payload k = None -> dict_get kwargs k = None ->
  dict_get (fold_left E2ENetworksLLM.add_extra kwargs payload) k = None.
Proof.
  revert payload. induction kwargs as [|[k' v'] kwargs IH]; intros payload Hp Hk; cbn [fold_left].
  - assumption.
  - simpl in Hk. destruct (String.eqb_spec k' k) as [->|Hne]; [discriminate|].
    apply IH; [|assumption]. now apply add_extra_absent.
Qed.

Lemma extras_pass (kwargs payload : dict) (k : string) (v : value) :
  dict_get kwargs k = Some v -> dict_get payload k = None ->
  in_list k ["temperature"; "max_tokens"; "top_p"] = false ->
  dict_get (fold_left E2ENetworksLLM.add_extra kwargs payload) k = Some v.
Proof.
  revert payload. induction kwargs as [|[k' v'] kwargs IH]; intros payload Hk Hp Hknown; cbn [fold_left].
  - discriminate.
  - simpl in Hk. destruct (String.eqb_spec k' k) as [->|Hne].
    + injection Hk as ->. apply extras_keep.
      unfold E2ENetworksLLM.add_extra.
      apply dict_in_false in Hp. rewrite Hp, Hknown. simpl.
      apply dict_get_set_same.
    + apply IH; [assumption| |assumption]. now apply add_extra_absent.
Qed.


(** ** The request payload *)

Section Payload.

Variable self : E2ENetworksLLM.instance.
Variable prompt : string.
Variable stop : option (list string).

(** The payload before the loop over the extra keyword arguments. *)
Lemma build_start (kwargs : dict) (k : string) :
  k <> "stop" ->
  dict_get (if E2ENetworksLLM.truthy stop
            then dict_set
                   [("prompt", VStr prompt);
                    ("temperature", dict_get_default kwargs "temperature"
                                      (VFloat (E2ENetworksLLM.temperature self)));
                    ("max_tokens", dict_get_default kwargs "max_tokens"
                                     (VInt (E2ENetworksLLM.max_tokens self)));
                    ("top_p", dict_get_default kwargs "top_p"
                                (VFloat (E2ENetworksLLM.top_p self)));
                    ("model", VStr (E2ENetworksLLM.model_name self))]
                   "stop" (E2ENetworksLLM.stop_value stop)
            else
                   [("prompt", VStr prompt);
                    ("temperature", dict_get_default kwargs "temperature"
                                      (VFloat (E2ENetworksLLM.temperature self)));
                    ("max_tokens", dict_get_default kwargs "max_tokens"
                                     (VInt (E2ENetworksLLM.max_tokens self)));
                    ("top_p", dict_get_default kwargs "top_p"
                                (VFloat (E2ENetworksLLM.top_p self)));
                    ("model", VStr (E2ENetworksLLM.model_name self))]) k
  = dict_get
      [("prompt", VStr prompt);
       ("temperature", dict_get_default kwargs "temperature"
                         (VFloat (E2ENetworksLLM.temperature self)));
       ("max_tokens", dict_get_default kwargs "max_tokens"
                        (VInt (E2ENetworksLLM.max_tokens self)));
       ("top_p", dict_get_default kwargs "top_p"
                   (VFloat (E2ENetworksLLM.top_p self)));
       ("model", VStr (E2ENetworksLLM.model_name self))] k.
Proof.
  intros Hne. destruct (E2ENetworksLLM.truthy stop); [|reflexivity].
  apply dict_get_set_other. congruence.
Qed.

Lemma build_payload_returns (kwargs : dict) :
  kwargs_ok ["self"; "prompt"; "stop"] kwargs = true ->
  E2ENetworksLLM._build_payload self prompt stop kwargs
  = Return (E2ENetworksLLM.build self prompt stop kwargs).
Proof.
  intros Hok. unfold E2ENetworksLLM._build_payload.
  now rewrite (bind_kwargs_ok _ _ _ Hok).
Qed.

(** A key of the payload literal keeps the value the literal gives it. *)
Lemma build_fixed (kwargs : dict) (k : string) (v : value) :
  k <> "stop" ->
  dict_get
    [("prompt", VStr prompt);
     ("temperature", dict_get_default kwargs "temperature"
                       (VFloat (E2ENetworksLLM.temperature self)));
     ("max_tokens", dict_get_default kwargs "max_tokens"
                      (VInt (E2ENetworksLLM.max_tokens self)));
     ("top_p", dict_get_default kwargs "top_p"
                 (VFloat (E2ENetworksLLM.top_p self)));
     ("model", VStr (E2ENetworksLLM.model_name self))] k = Some v ->
  dict_get (E2ENetworksLLM.build self prompt stop kwargs) k = Some v.
Proof.
  intros Hne Hk. unfold E2ENetworksLLM.build.
  apply extras_keep. now rewrite build_start.
Qed.

(** C7: for every instance and every set of overrides, [temperature],
    [max_tokens] and [top_p] of the payload are the override when one is
    given and the instance's value otherwise; with the single override
    [temperature = v] the payload is the one built without overrides,
    its [temperature] replaced by [v]. *)
Theorem overrides_take_precedence (kwargs : dict) :
  kwargs_ok ["self"; "prompt"; "stop"] kwargs = true ->
  exists payload,
    E2ENetworksLLM._build_payload self prompt stop kwargs = Return payload
    /\ override_or_default kwargs payload "temperature"
         (VFloat (E2ENetworksLLM.temperature self))
    /\ override_or_default kwargs payload "max_tokens"
         (VInt (E2ENetworksLLM.max_tokens self))
    /\ override_or_default kwargs payload "top_p"
         (VFloat (E2ENetworksLLM.top_p self))
    /\ forall v, exists plain,
         E2ENetworksLLM._build_payload self prompt stop [] = Return plain
         /\ E2ENetworksLLM._build_payload self prompt stop [("temperature", v)]
            = Return (dict_set plain "temperature" v).
Proof.
  intros Hok. exists (E2ENetworksLLM.build self prompt stop kwargs).
  split; [now apply build_payload_returns|].
  repeat split.
  - unfold override_or_default.
    destruct (dict_get kwargs "temperature") as [v|] eqn:E;
      apply build_fixed; try discriminate;
      unfold dict_get_default; rewrite E; reflexivity.
  - unfold override_or_default.
    destruct (dict_get kwargs "max_tokens") as [v|] eqn:E;
      apply build_fixed; try discriminate;
      unfold dict_get_default; rewrite E; reflexivity.
  - unfold override_or_default.
    destruct (dict_get kwargs "top_p") as [v|] eqn:E;
      apply build_fixed; try discriminate;
      unfold dict_get_default; rewrite E; reflexivity.
  - intros v. exists (E2ENetworksLLM.build self prompt stop []).
    split; [reflexivity|].
    destruct stop as [[|s l]|]; reflexivity.
Qed.

(** C4 (amended): a payload of [E2ENetworksLLM] has the key ["stop"]
    exactly when the stop list is given and not empty, and then holds the
    list as given; the payload of [E2ELLM] in [app.py] always has the
    key, with [None] for an absent list. *)
Theorem stop_key_of_payload (kwargs : dict) (app : E2ELLM.instance) :
  kwargs_ok ["self"; "prompt"; "stop"] kwargs = true ->
  (exists payload,
     E2ENetworksLLM._build_payload self prompt stop kwargs = Return payload
     /\ dict_in "stop" payload = E2ENetworksLLM.truthy stop
     /\ (forall l, stop = Some l -> l <> [] ->
         dict_get payload "stop" = Some (VList (map VStr l))))
  /\ dict_get (E2ELLM.payload_of app prompt stop) "stop"
     = Some (match stop with Some l => VList (map VStr l) | None => VNone end).
Proof.
  intros Hok. split; [|reflexivity].
  exists (E2ENetworksLLM.build self prompt stop kwargs).
  split; [now apply build_payload_returns|].
  assert (dict_get kwargs "stop" = None) as Hnone
    by (apply (kwargs_ok_get _ _ _ Hok); reflexivity).
  split.
  - unfold E2ENetworksLLM.build.
    destruct (E2ENetworksLLM.truthy stop).
    + apply dict_in_true. eexists. apply extras_keep. reflexivity.
    + apply dict_in_false. apply extras_absent; [reflexivity | assumption].
  - intros l -> Hl. destruct l as [|s l]; [congruence|].
    unfold E2ENetworksLLM.build. apply extras_keep. reflexivity.
Qed.

(** C6 (amended): an override whose key is none of [temperature],
    [max_tokens], [top_p] and is not [model] reaches the payload with its
    value. *)
Theorem extra_keys_pass_through (kwargs : dict) (key : string) (v : value) :
  kwargs_ok ["self"; "prompt"; "stop"] kwargs = true ->
  dict_get kwargs key = Some v ->
  in_list key ["temperature"; "max_tokens"; "top_p"] = false ->
  key <> "model" ->
  exists payload,
    E2ENetworksLLM._build_payload self prompt stop kwargs = Return payload
    /\ dict_get payload key = Some v.
Proof.
  intros Hok Hkey Hknown Hmodel.
  exists (E2ENetworksLLM.build self prompt stop kwargs).
  split; [now apply build_payload_returns|].
  assert (key <> "prompt") as Hprompt.
  { intros ->. rewrite (kwargs_ok_get _ _ _ Hok) in Hkey by reflexivity. discriminate. }
  assert (key <> "stop") as Hstop.
  { intros ->. rewrite (kwargs_ok_get _ _ _ Hok) in Hkey by reflexivity. discriminate. }
  unfold E2ENetworksLLM.build. apply extras_pass; [assumption| |assumption].
  rewrite build_start by assumption.
  unfold in_list in Hknown. simpl in Hknown.
  apply orb_false_iff in Hknown as [H1 Hknown].
  apply orb_false_iff in Hknown as [H2 Hknown].
  apply orb_false_iff in Hknown as [H3 _].
  rewrite String.eqb_sym in H1. rewrite String.eqb_sym in H2.
  rewrite String.eqb_sym in H3.
  cbn [dict_get]. rewrite H1, H2, H3.
  destruct (String.eqb_spec "prompt" key); [congruence|].
  destruct (String.eqb_spec "model" key); [congruence|].
  reflexivity.
Qed.

(** C9 (amended): whatever the overrides the call accepts, the payload's
    [prompt] is the prompt given and its [model] the instance's
    [model_name], so an override named [model] is dropped; overrides
    named [prompt] or [stop] are not dropped: the call raises
    [TypeError]. *)
Theorem prompt_and_model_are_fixed (kwargs : dict) :
  (kwargs_ok ["self"; "prompt"; "stop"] kwargs = true ->
   exists payload,
     E2ENetworksLLM._build_payload self prompt stop kwargs = Return payload
     /\ dict_get payload "prompt" = Some (VStr prompt)
     /\ dict_get payload "model" = Some (VStr (E2ENetworksLLM.model_name self)))
  /\ (kwargs_ok ["self"; "prompt"; "stop"] kwargs = false ->
      exists msg,
        E2ENetworksLLM._build_payload self prompt stop kwargs = Raise (TypeError msg)).
Proof.
  split.
  - intros Hok. exists (E2ENetworksLLM.build self prompt stop kwargs).
    split; [now apply build_payload_returns|].
    split; apply build_fixed; try discriminate; reflexivity.
  - intros Hno. unfold E2ENetworksLLM._build_payload.
    destruct (bind_kwargs_clash "_build_payload" _ _ Hno) as [msg ->].
    now exists msg.
Qed.

End Payload.

(** ** The response normaliser *)

Section NormalizerProperties.

Variable float_repr : float -> string.

Lemma from_fields_object (fields : list string) (d : dict) :
  E2ENetworksLLM.from_fields float_repr fields (VDict d)
  = Return (first_present float_repr fields d).
Proof.
  induction fields as [|f fields IH]; [reflexivity|].
  cbn [E2ENetworksLLM.from_fields first_present py_in bind]. unfold dict_in.
  cbn [py_getitem].
  destruct (dict_get d f) as [v|]; [reflexivity | exact IH].
Qed.

(** After the choices branch fell through, rules 2 and 3 decide. *)
Lemma extract_falls_through (d : dict) :
  E2ENetworksLLM.from_choices (VDict d) = Return None ->
  E2ENetworksLLM._extract_generated_text float_repr (VDict d)
  = Return (top_level float_repr d).
Proof.
  intros H. unfold E2ENetworksLLM._extract_generated_text.
  rewrite H. cbn [bind]. rewrite from_fields_object. cbn [bind].
  unfold top_level. now destruct (first_present _ _ d).
Qed.

Lemma extract_chosen (d : dict) (v : value) :
  E2ENetworksLLM.from_choices (VDict d) = Return (Some v) ->
  E2ENetworksLLM._extract_generated_text float_repr (VDict d) = Return v.
Proof.
  intros H. unfold E2ENetworksLLM._extract_generated_text. now rewrite H.
Qed.

Lemma extract_raises (d : dict) (e : exn) :
  E2ENetworksLLM.from_choices (VDict d) = Raise e ->
  E2ENetworksLLM._extract_generated_text float_repr (VDict d) = Raise e.
Proof.
  intros H. unfold E2ENetworksLLM._extract_generated_text. now rewrite H.
Qed.

End NormalizerProperties.

(** The choices branch on an object: it gives what rule 1 says, or it
    raises [TypeError], and only when the first choice or its message is
    not an object. *)
Lemma from_choices_object (d : dict) :
  match E2ENetworksLLM.from_choices (VDict d) with
  | Return o => o = chosen d
  | Raise e => object_choice d = false /\ exists msg, e = TypeError msg
  end.
Proof.
  unfold E2ENetworksLLM.from_choices, chosen, object_choice.
  cbn [py_in bind]. unfold dict_in. cbn [py_getitem].
  destruct (dict_get d "choices") as [choices|]; [|reflexivity].
  cbn [bind].
  destruct choices as [| | | | |[|choice rest]|]; try reflexivity.
  destruct choice as [|b|z|f|s|l|c]; cbn [py_in bind type_name field];
    try (split; [reflexivity | eexists; reflexivity]).
  - destruct (contains "text" s); cbn [py_getitem bind].
    + split; [reflexivity | eexists; reflexivity].
    + destruct (contains "message" s); cbn [py_getitem bind].
      * split; [reflexivity | eexists; reflexivity].
      * reflexivity.
  - destruct (existsb (is_str "text") l); cbn [py_getitem bind].
    + split; [reflexivity | eexists; reflexivity].
    + destruct (existsb (is_str "message") l); cbn [py_getitem bind].
      * split; [reflexivity | eexists; reflexivity].
      * reflexivity.
  - unfold dict_in. cbn [py_getitem].
    destruct (dict_get c "text") as [t|]; [reflexivity|].
    destruct (dict_get c "message") as [message|]; [|reflexivity].
    cbn [bind].
    destruct message as [|b|z|f|s|l|m]; cbn [py_in bind type_name field is_dict];
      try (split; [reflexivity | eexists; reflexivity]).
    + destruct (contains "content" s); cbn [py_getitem bind].
      * split; [reflexivity | eexists; reflexivity].
      * reflexivity.
    + destruct (existsb (is_str "content") l); cbn [py_getitem bind].
      * split; [reflexivity | eexists; reflexivity].
      * reflexivity.
    + unfold dict_in. cbn [py_getitem].
      destruct (dict_get m "content"); reflexivity.
Qed.

Lemma from_choices_of_objects (d : dict) :
  object_choice d = true ->
  E2ENetworksLLM.from_choices (VDict d) = Return (chosen d).
Proof.
  intros Hobj. pose proof (from_choices_object d) as H.
  destruct (E2ENetworksLLM.from_choices (VDict d)) as [o|e].
  - now subst.
  - destruct H as [H _]. congruence.
Qed.

Lemma none_present (float_repr : float -> string) (fields : list string) (d : dict) :
  forallb (fun f => negb (dict_in f d)) fields = true ->
  first_present float_repr fields d = None.
Proof.
  induction fields as [|f fields IH]; [reflexivity|].
  cbn [forallb first_present]. intros H.
  apply andb_true_iff in H as [Hf Hrest].
  apply negb_true_iff, dict_in_false in Hf. rewrite Hf. auto.
Qed.

Lemma extract_of_objects (float_repr : float -> string) (d : dict) :
  object_choice d = true ->
  E2ENetworksLLM._extract_generated_text float_repr (VDict d)
  = Return (extract_spec float_repr d).
Proof.
  intros Hobj. pose proof (from_choices_of_objects d Hobj) as H.
  unfold extract_spec. destruct (chosen d) as [v|].
  - now apply extract_chosen.
  - now apply extract_falls_through.
Qed.

(** X20: on a response object whose first choice, when ["choices"] is a
    non-empty list, is an object (and whose ["message"], when looked at,
    is an object), the normaliser follows the priority order: the first
    choice's ["text"], else the ["content"] of its ["message"], else the first present of the seven fields as a string,
    else the whole object as a string.  A first choice with a ["text"]
    wins over every top-level field, and [{"text":"C","response":"D"}]
    gives ["D"]. *)
Theorem normalizer_priority (float_repr : float -> string) (d : dict) :
  object_choice d = true ->
  E2ENetworksLLM._extract_generated_text float_repr (VDict d)
  = Return (extract_spec float_repr d)
  /\ (forall c rest t,
        dict_get d "choices" = Some (VList (VDict c :: rest)) ->
        dict_get c "text" = Some t ->
        E2ENetworksLLM._extract_generated_text float_repr (VDict d) = Return t)
  /\ (forall c rest m t,
        dict_get d "choices" = Some (VList (VDict c :: rest)) ->
        dict_get c "text" = None ->
        dict_get c "message" = Some (VDict m) ->
        dict_get m "content" = Some t ->
        E2ENetworksLLM._extract_generated_text float_repr (VDict d) = Return t)
  /\ E2ENetworksLLM._extract_generated_text float_repr
       (VDict [("text", VStr "C"); ("response", VStr "D")])
     = Return (VStr "D").
Proof.
  intros Hobj. pose proof (extract_of_objects float_repr d Hobj) as Hspec.
  split; [|split; [|split]].
  - exact Hspec.
  - intros c rest t Hc Ht. rewrite Hspec. unfold extract_spec, chosen.
    rewrite Hc. cbn [field]. now rewrite Ht.
  - intros c rest m t Hc Ht Hm Hcontent. rewrite Hspec.
    unfold extract_spec, chosen. rewrite Hc. cbn [field].
    rewrite Ht, Hm. cbn [field]. now rewrite Hcontent.
  - reflexivity.
Qed.

Lemma nothing_chosen (d : dict) :
  choices_yield_nothing d = true -> object_choice d = true /\ chosen d = None.
Proof.
  unfold choices_yield_nothing, object_choice, chosen.
  destruct (dict_get d "choices") as [choices|]; [|auto].
  destruct choices as [| | | | |[|choice rest]|]; auto.
  destruct choice as [| | | | | |c]; try discriminate. cbn [field].
  destruct (dict_get c "text"); [discriminate|].
  destruct (dict_get c "message") as [message|]; [|auto].
  destruct message as [| | | | | |m]; try discriminate. cbn [field is_dict].
  unfold dict_in. destruct (dict_get m "content"); [discriminate | auto].
Qed.

(** C5 (amended): on a response object in which the rule of the choices
    finds nothing (["choices"] absent, not a list or empty, or its first
    element an object without ["text"] whose ["message"] is absent or is
    an object without ["content"]) and which has none of the seven
    fields, [E2ENetworksLLM] returns the string form of the whole object;
    the wrapper of [app.py] returns ["No response received"] instead. *)
Theorem unknown_shape_is_stringified (float_repr : float -> string) (d : dict)
    (r : response) :
  choices_yield_nothing d = true ->
  forallb (fun f => negb (dict_in f d)) E2ENetworksLLM.text_fields = true ->
  E2ENetworksLLM._extract_generated_text float_repr (VDict d)
  = Return (VStr (py_str float_repr (VDict d)))
  /\ (raise_for_status r = Return tt -> json r = Return (VDict d) ->
      E2ELLM.attempt (Return r) = Return (VStr "No response received")).
Proof.
  intros Hnothing Hnone. destruct (nothing_chosen d Hnothing) as [Hobj Hchosen].
  split.
  - rewrite (extract_of_objects float_repr d Hobj).
    unfold extract_spec, top_level.
    now rewrite Hchosen, (none_present float_repr _ _ Hnone).
  - intros Hstatus Hjson. unfold E2ELLM.attempt. cbn [bind].
    rewrite Hstatus, Hjson. cbn [bind E2ELLM.py_get].
    cbn [forallb E2ENetworksLLM.text_fields] in Hnone.
    apply andb_true_iff in Hnone as [Hresponse Hnone].
    apply andb_true_iff in Hnone as [Htext _].
    apply negb_true_iff, dict_in_false in Hresponse.
    apply negb_true_iff, dict_in_false in Htext.
    unfold dict_get_default. now rewrite Htext, Hresponse.
Qed.


(** ** Construction *)

Lemma init_raises (env : string -> option string)
    (endpoint_url api_key : option string) (model_name : string)
    (temperature : float) (max_tokens : Z) (top_p : float) (timeout : Z)
    (kwargs : dict) :
  exists msg,
    E2ENetworksLLM.__init__ env endpoint_url api_key model_name temperature
      max_tokens top_p timeout kwargs = Raise (TypeError msg)
    \/ E2ENetworksLLM.__init__ env endpoint_url api_key model_name temperature
         max_tokens top_p timeout kwargs = Raise (ValidationError msg).
Proof.
  unfold E2ENetworksLLM.__init__.
  destruct (kwargs_ok ["self"; "endpoint_url"; "api_key"; "model_name";
                       "temperature"; "max_tokens"; "top_p"; "timeout"] kwargs)
    eqn:Hok.
  - rewrite (bind_kwargs_ok _ _ _ Hok). cbn [bind].
    unfold E2ENetworksLLM.base_init, E2ENetworksLLM.required_fields.
    assert (dict_in "endpoint_url" kwargs = false) as Hmissing
      by (apply dict_in_false, (kwargs_ok_get _ _ _ Hok); reflexivity).
    cbn [filter]. rewrite Hmissing. cbn [negb].
    eexists. right. reflexivity.
  - destruct (bind_kwargs_clash "__init__" _ _ Hok) as [msg ->].
    exists msg. now left.
Qed.

(** C2 (amended): constructing an [E2ENetworksLLM], by its constructor or
    by [create_e2e_llm], with an endpoint URL or an API key that resolves
    to nothing (the parameter first, then the environment variable)
    returns no instance: it raises, at construction.  The wrapper
    [E2ELLM] of [app.py] reads the two from the environment only, the
    empty string for a variable that is not set, and checks nothing. *)
Theorem empty_credentials_are_refused (env : string -> option string)
    (endpoint_url api_key : option string) (model_name : string)
    (temperature : float) (max_tokens : Z) (top_p : float) (timeout : Z)
    (kwargs : dict) :
  absent (E2ENetworksLLM.py_or endpoint_url (env "E2E_ENDPOINT_URL"))
  || absent (E2ENetworksLLM.py_or api_key (env "E2E_API_KEY")) = true ->
  (exists e,
     E2ENetworksLLM.__init__ env endpoint_url api_key model_name temperature
       max_tokens top_p timeout kwargs = Raise e)
  /\ (exists e,
        E2ENetworksLLM.create_e2e_llm env endpoint_url api_key model_name
          temperature max_tokens top_p timeout kwargs = Raise e)
  /\ E2ELLM.endpoint_url (E2ELLM.__init__ env)
     = match env "E2E_ENDPOINT_URL" with Some url => url | None => "" end
  /\ E2ELLM.api_key (E2ELLM.__init__ env)
     = match env "E2E_API_KEY" with Some key => key | None => "" end.
Proof.
  intros _.
  destruct (init_raises env endpoint_url api_key model_name temperature
              max_tokens top_p timeout kwargs) as [msg [H|H]];
    (split; [|split; [|split; reflexivity]]);
    unfold E2ENetworksLLM.create_e2e_llm; rewrite H; eexists; reflexivity.
Qed.

(** X10: constructing an [E2ENetworksLLM] never returns an instance,
    whatever the credentials: a keyword argument that repeats a parameter
    is a [TypeError], and otherwise the initialiser of the base class
    raises [ValidationError], the two required fields being never among
    the keyword arguments it is given; the two checks of the credentials
    are not reached.  With a URL and a key that are not empty the
    constructor and [create_e2e_llm] raise [ValidationError]. *)
Theorem constructor_never_returns :
  (forall env endpoint_url api_key model_name temperature max_tokens top_p
          timeout kwargs,
     exists msg,
       E2ENetworksLLM.__init__ env endpoint_url api_key model_name temperature
         max_tokens top_p timeout kwargs = Raise (TypeError msg)
       \/ E2ENetworksLLM.__init__ env endpoint_url api_key model_name temperature
            max_tokens top_p timeout kwargs = Raise (ValidationError msg))
  /\ (exists msg,
        E2ENetworksLLM.__init__ empty_env (Some "https://llm.example/v1/generate")
          (Some "secret") "e2e-llm" 0.7 1000 0.9 30 []
        = Raise (ValidationError msg))
  /\ (exists msg,
        E2ENetworksLLM.create_e2e_llm empty_env
          (Some "https://llm.example/v1/generate") (Some "secret") "e2e-llm"
          0.7 1000 0.9 30 []
        = Raise (ValidationError msg))
  /\ (exists msg,
        E2ENetworksLLM.__init__
          (fun name => if String.eqb name "E2E_API_KEY" then Some "secret" else None)
          (Some "https://llm.example/v1/generate") None "e2e-llm" 0.7 1000 0.9 30
          [("verbose", VBool true)]
        = Raise (ValidationError msg))
  /\ (exists msg,
        E2ENetworksLLM.__init__ empty_env (Some "https://llm.example/v1/generate")
          (Some "secret") "e2e-llm" 0.7 1000 0.9 30 [("api_key", VStr "other")]
        = Raise (TypeError msg)).
Proof.
  split; [exact init_raises | repeat split; eexists; reflexivity].
Qed.

(** ** A call *)

Lemma kwargs_ok_fewer (names names' : list string) (kwargs : dict) :
  (forall k, in_list k names' = true -> in_list k names = true) ->
  kwargs_ok names kwargs = true -> kwargs_ok names' kwargs = true.
Proof.
  unfold kwargs_ok. intros Hsub Hok. rewrite forallb_forall in *.
  intros kv Hin. specialize (Hok kv Hin).
  apply negb_true_iff in Hok. apply negb_true_iff.
  destruct (in_list (fst kv) names') eqn:E; [|reflexivity].
  rewrite (Hsub _ E) in Hok. discriminate.
Qed.

Lemma handle_is_error (self : E2ENetworksLLM.instance) (e : exn) :
  exists s, E2ENetworksLLM.handle self e = VStr ("Error: " ++ s).
Proof. destruct e; eexists; reflexivity. Qed.

Section Call.

Variable float_repr : float -> string.
Variable world : Type.
Variable post : world -> request -> Py.result response * world.
Variable text_of_number : value -> option string.
Variable self : E2ENetworksLLM.instance.
Variable stop : option (list string).
Variable kwargs : dict.
Hypothesis kwargs_accepted :
  kwargs_ok ["self"; "prompt"; "stop"; "run_manager"] kwargs = true.

Lemma call_sends (prompt : string) (w w' : world) (sent : Py.result response) :
  post w (request_of self prompt stop kwargs) = (sent, w') ->
  E2ENetworksLLM._call float_repr world post self prompt stop kwargs w
  = (Return (match E2ENetworksLLM.attempt float_repr sent with
             | Return generated_text => generated_text
             | Raise e => E2ENetworksLLM.handle self e
             end), w').
Proof.
  intros Hpost. unfold E2ENetworksLLM._call.
  rewrite (bind_kwargs_ok _ _ _ kwargs_accepted).
  rewrite build_payload_returns.
  - fold (request_of self prompt stop kwargs). rewrite Hpost.
    now destruct (E2ENetworksLLM.attempt float_repr sent).
  - apply (kwargs_ok_fewer ["self"; "prompt"; "stop"; "run_manager"]);
      [|exact kwargs_accepted].
    intros k Hk. apply in_list_In in Hk. apply in_list_In.
    simpl in *. intuition.
Qed.




End Call.

(** C3 (amended): a call of [E2ENetworksLLM] never raises once its
    arguments are bound; when the request times out, the status is
    between 400 and 599, the transport fails, the body is not JSON, or
    anything else in the attempt raises, it returns a string that starts
    with ["Error: "].  A status outside 400..599 is no failure.  In
    [app.py], [E2ELLM._call] returns ["Error calling E2E LLM: ..."] for a
    [requests] exception and ["Error parsing response: ..."] for a JSON
    one, and lets every other exception out; [get_llm_response] turns
    that one into ["Error getting response: ..."]. *)
Theorem call_failures_become_strings (float_repr : float -> string)
    (world : Type) (post : world -> request -> Py.result response * world)
    (self : E2ENetworksLLM.instance) (prompt : string)
    (stop : option (list string)) (kwargs : dict)
    (w w' : world) (sent : Py.result response) :
  kwargs_ok ["self"; "prompt"; "stop"; "run_manager"] kwargs = true ->
  post w (request_of self prompt stop kwargs) = (sent, w') ->
  let call := E2ENetworksLLM._call float_repr world post self prompt stop kwargs w in
  (exists outcome, call = (Return outcome, w'))
  /\ (forall e, E2ENetworksLLM.attempt float_repr sent = Raise e ->
        exists s, call = (Return (VStr ("Error: " ++ s)), w'))
  /\ (forall msg, sent = Raise (Timeout msg) ->
        call = (Return (VStr (timed_out self)), w'))
  /\ (forall r, sent = Return r -> 400 <= status_code r < 600 ->
        call = (Return (VStr ("Error: HTTP error " ++ str_int (status_code r)
                                ++ ": " ++ text r)), w'))
  /\ (forall e, sent = Raise e -> E2ENetworksLLM.attempt float_repr sent = Raise e)
  /\ (forall r e, sent = Return r -> raise_for_status r = Return tt ->
        json r = Raise e -> E2ENetworksLLM.attempt float_repr sent = Raise e)
  /\ (forall r v generated, sent = Return r ->
        ~ 400 <= status_code r < 600 -> json r = Return v ->
        E2ENetworksLLM._extract_generated_text float_repr v = Return generated ->
        call = (Return generated, w'))
  /\ (forall (app : E2ELLM.instance) (sent2 : Py.result response) (w2 : world) e,
        post w (app_request_of app prompt stop) = (sent2, w2) ->
        E2ELLM.attempt sent2 = Raise e ->
        E2ELLM._call world post app prompt stop w
        = match e with
          | Timeout _ | HTTPError _ _ _ | RequestException _
          | RequestsJSONDecodeError _ =>
              (Return (VStr ("Error calling E2E LLM: " ++ exn_str e)), w2)
          | JSONDecodeError _ =>
              (Return (VStr ("Error parsing response: " ++ exn_str e)), w2)
          | _ => (Raise e, w2)
          end)
  /\ (forall (app : E2ELLM.instance) (sent2 : Py.result response) (w2 : world) e,
        post w (app_request_of app prompt None) = (sent2, w2) ->
        E2ELLM.attempt sent2 = Raise e ->
        exists s,
          E2ELLM.get_llm_response world post app prompt w = (VStr ("Error " ++ s), w2)).
Proof.
  intros Hok Hpost call.
  assert (call = (Return (match E2ENetworksLLM.attempt float_repr sent with
                          | Return generated_text => generated_text
                          | Raise e => E2ENetworksLLM.handle self e
                          end), w')) as Hcall
    by (apply call_sends; assumption).
  assert (forall r, ~ 400 <= status_code r < 600 -> raise_for_status r = Return tt)
    as Hstatus.
  { intros r Hr. unfold raise_for_status.
    destruct (400 <=? status_code r) eqn:E1; destruct (status_code r <? 500) eqn:E2;
      destruct (500 <=? status_code r) eqn:E3; destruct (status_code r <? 600) eqn:E4;
      try reflexivity; exfalso; apply Hr; lia. }
  split; [|split; [|split; [|split; [|split; [|split; [|split; [|split]]]]]]].
  - rewrite Hcall. eauto.
  - intros e He. rewrite Hcall, He.
    destruct (handle_is_error self e) as [s ->]. eauto.
  - intros msg ->. rewrite Hcall. reflexivity.
  - intros r -> Hr. rewrite Hcall.
    unfold E2ENetworksLLM.attempt, raise_for_status. cbn [bind].
    destruct (400 <=? status_code r) eqn:E1; destruct (status_code r <? 500) eqn:E2;
      destruct (500 <=? status_code r) eqn:E3; destruct (status_code r <? 600) eqn:E4;
      try reflexivity; lia.
  - intros e ->. reflexivity.
  - intros r e -> Hr Hjson. unfold E2ENetworksLLM.attempt. cbn [bind].
    now rewrite Hr, Hjson.
  - intros r v generated -> Hr Hjson Hextract. rewrite Hcall.
    unfold E2ENetworksLLM.attempt. cbn [bind].
    now rewrite (Hstatus r Hr), Hjson; cbn [bind]; rewrite Hextract.
  - intros app sent2 w2 e Hpost2 He. unfold E2ELLM._call.
    fold (app_request_of app prompt stop). rewrite Hpost2, He.
    destruct e; reflexivity.
  - intros app sent2 w2 e Hpost2 He. unfold E2ELLM.get_llm_response, E2ELLM._call.
    fold (app_request_of app prompt None). rewrite Hpost2, He.
    destruct e; eexists; reflexivity.
Qed.

(** ** Batch generation *)


(** * Closed instances *)

(** With the defaults and the single override [temperature = 0.2], the
    payload has [temperature = 0.2] and is otherwise the plain one. *)
Lemma overrides_take_precedence_at_02 :
  exists payload plain,
    E2ENetworksLLM._build_payload default_llm "Hello" None
      [("temperature", VFloat 0.2)] = Return payload
    /\ dict_get payload "temperature" = Some (VFloat 0.2)
    /\ E2ENetworksLLM._build_payload default_llm "Hello" None [] = Return plain
    /\ dict_get plain "temperature" = Some (VFloat 0.7)
    /\ payload = dict_set plain "temperature" (VFloat 0.2).
Proof.
  destruct (overrides_take_precedence default_llm "Hello" None
              [("temperature", VFloat 0.2)] eq_refl)
    as [payload [Hbuilt [Htemperature [_ [_ Hsingle]]]]].
  destruct (Hsingle (VFloat 0.2)) as [plain [Hplain Hover]].
  exists payload, plain. repeat split; try assumption.
  - injection Hplain as <-. reflexivity.
  - rewrite Hbuilt in Hover. now injection Hover.
Defined.

(** The stop list [["END"]] is in the payload as given. *)
Lemma stop_key_of_payload_with_END :
  exists payload,
    E2ENetworksLLM._build_payload default_llm "Hello" (Some ["END"]) []
    = Return payload
    /\ dict_get payload "stop" = Some (VList [VStr "END"]).
Proof.
  destruct (stop_key_of_payload default_llm "Hello" (Some ["END"]) []
              (E2ELLM.__init__ empty_env) eq_refl)
    as [[payload [Hbuilt [_ Hstop]]] _].
  exists payload. split; [exact Hbuilt|].
  apply (Hstop ["END"]); [reflexivity | discriminate].
Defined.

(** The payload of [E2ELLM] has ["stop"] with [None] when no stop list is
    given, where the claim has the key left out. *)
Lemma app_payload_has_null_stop :
  dict_in "stop" (E2ELLM.payload_of (E2ELLM.__init__ empty_env) "Hello" None) = true
  /\ dict_get (E2ELLM.payload_of (E2ELLM.__init__ empty_env) "Hello" None) "stop"
     = Some VNone.
Proof. split; reflexivity. Qed.

(** An override the wrapper does not know, [seed = 7], reaches the payload. *)
Lemma extra_keys_pass_through_seed :
  exists payload,
    E2ENetworksLLM._build_payload default_llm "Hello" None [("seed", VInt 7)]
    = Return payload
    /\ dict_get payload "seed" = Some (VInt 7).
Proof.
  apply (extra_keys_pass_through default_llm "Hello" None [("seed", VInt 7)]
           "seed" (VInt 7)); [reflexivity | reflexivity | reflexivity | discriminate].
Defined.

(** The override [model = "gpt-4"] is none of the three known fields, and
    the payload keeps the instance's model. *)
Lemma model_override_is_dropped :
  in_list "model" ["temperature"; "max_tokens"; "top_p"] = false
  /\ E2ENetworksLLM._build_payload default_llm "Hello" None [("model", VStr "gpt-4")]
     = Return [("prompt", VStr "Hello"); ("temperature", VFloat 0.7);
               ("max_tokens", VInt 1000); ("top_p", VFloat 0.9);
               ("model", VStr "e2e-llm")].
Proof. split; reflexivity. Qed.

(** An override named [stop] is not dropped: the call is a [TypeError],
    and the body alone would let the entry through. *)
Lemma stop_override_is_rejected :
  E2ENetworksLLM._build_payload default_llm "Hello" None
    [("stop", VList [VStr "END"])]
  = Raise (TypeError "_build_payload() got multiple values for argument 'stop'")
  /\ dict_get (E2ENetworksLLM.build default_llm "Hello" None
                 [("stop", VList [VStr "END"])]) "stop"
     = Some (VList [VStr "END"]).
Proof. split; reflexivity. Qed.

(** An accepted call: the override [model] is dropped. *)
Lemma prompt_and_model_are_fixed_with_model :
  exists payload,
    E2ENetworksLLM._build_payload default_llm "Hello" None [("model", VStr "gpt-4")]
    = Return payload
    /\ dict_get payload "prompt" = Some (VStr "Hello")
    /\ dict_get payload "model" = Some (VStr "e2e-llm").
Proof.
  apply (proj1 (prompt_and_model_are_fixed default_llm "Hello" None
                  [("model", VStr "gpt-4")])).
  reflexivity.
Defined.

(** [{"choices":[{"message":{"content":"B"}}],"text":"T"}] gives ["B"]. *)
Lemma normalizer_priority_message_content :
  E2ENetworksLLM._extract_generated_text no_float_repr
    (VDict [("choices", VList [VDict [("message", VDict [("content", VStr "B")])]]);
            ("text", VStr "T")])
  = Return (VStr "B").
Proof.
  apply (proj1 (normalizer_priority no_float_repr
                  [("choices", VList [VDict [("message", VDict [("content", VStr "B")])]]);
                   ("text", VStr "T")] eq_refl)).
Defined.

(** With neither variable set and no parameter, [E2ENetworksLLM()] and
    [create_e2e_llm()] raise. *)
Lemma empty_credentials_are_refused_unset :
  (exists e,
     E2ENetworksLLM.__init__ empty_env None None "e2e-llm" 0.7 1000 0.9 30 []
     = Raise e)
  /\ (exists e,
        E2ENetworksLLM.create_e2e_llm empty_env None (Some "secret") "e2e-llm"
          0.7 1000 0.9 30 [] = Raise e).
Proof.
  split.
  - exact (proj1 (empty_credentials_are_refused empty_env None None "e2e-llm"
                    0.7 1000 0.9 30 [] eq_refl)).
  - exact (proj1 (proj2 (empty_credentials_are_refused empty_env None
                           (Some "secret") "e2e-llm" 0.7 1000 0.9 30 [] eq_refl))).
Defined.

(** With neither variable set, [E2ELLM()] is built, with an empty URL and
    an empty key. *)
Lemma app_constructor_accepts_empty_credentials :
  E2ELLM.__init__ empty_env
  = {| E2ELLM.endpoint_url := ""; E2ELLM.api_key := "";
       E2ELLM.model_name := "e2e-llm"; E2ELLM.temperature := 0.7;
       E2ELLM.max_tokens := 1000 |}.
Proof. reflexivity. Qed.

(** C1: on [{"choices":[1],"response":"x"}] the priority order gives
    ["x"], the first choice having neither a ["text"] nor a ["message"]
    and ["response"] being the first field present; the code raises
    [TypeError] instead. *)
Lemma normalizer_raises_on_number_choice :
  extract_spec no_float_repr
    [("choices", VList [VInt 1]); ("response", VStr "x")] = VStr "x"
  /\ E2ENetworksLLM._extract_generated_text no_float_repr
       (VDict [("choices", VList [VInt 1]); ("response", VStr "x")])
     = Raise (TypeError "argument of type 'int' is not iterable").
Proof. split; reflexivity. Qed.

(** [{"foo":"bar"}] comes back as its string form, and so does an object
    whose first choice has a ["message"] without ["content"]. *)
Lemma unknown_shape_is_stringified_foo_bar :
  (E2ENetworksLLM._extract_generated_text no_float_repr (VDict [("foo", VStr "bar")])
   = Return (VStr "{'foo': 'bar'}")
   /\ E2ELLM.attempt (Return (ok_response (VDict [("foo", VStr "bar")])))
      = Return (VStr "No response received"))
  /\ E2ENetworksLLM._extract_generated_text no_float_repr
       (VDict [("choices", VList [VDict [("message", VDict [("role", VStr "bot")])]]);
               ("foo", VInt 1)])
     = Return (VStr "{'choices': [{'message': {'role': 'bot'}}], 'foo': 1}").
Proof.
  split.
  - destruct (unknown_shape_is_stringified no_float_repr [("foo", VStr "bar")]
                (ok_response (VDict [("foo", VStr "bar")])) eq_refl eq_refl)
      as [Hwrapper Happ].
    split; [exact Hwrapper | exact (Happ eq_refl eq_refl)].
  - exact (proj1 (unknown_shape_is_stringified no_float_repr
                    [("choices",
                      VList [VDict [("message", VDict [("role", VStr "bot")])]]);
                     ("foo", VInt 1)]
                    (ok_response VNone) eq_refl eq_refl)).
Defined.

(** On [{"foo":"bar"}] the call of [E2ELLM] returns
    ["No response received"], not the string form of the object. *)
Lemma app_returns_no_response_received :
  fst (E2ELLM._call script scripted_post (E2ELLM.__init__ empty_env) "Hello" None
         ([Return (ok_response (VDict [("foo", VStr "bar")]))], []))
  = Return (VStr "No response received")
  /\ py_str no_float_repr (VDict [("foo", VStr "bar")]) = "{'foo': 'bar'}".
Proof. split; reflexivity. Qed.

(** C10: the normaliser is not total: on [{"choices":[1]}], whose first
    choice is no object, and on [{"choices":[{"message":null}]}], whose
    ["message"] is no object, it raises [TypeError] where it should fall
    through to the field probe and the string of the whole object. *)
Lemma normalizer_is_partial :
  (top_level no_float_repr [("choices", VList [VInt 1])] = VStr "{'choices': [1]}"
   /\ E2ENetworksLLM._extract_generated_text no_float_repr
        (VDict [("choices", VList [VInt 1])])
      = Raise (TypeError "argument of type 'int' is not iterable"))
  /\ (top_level no_float_repr [("choices", VList [VDict [("message", VNone)]])]
      = VStr "{'choices': [{'message': None}]}"
      /\ E2ENetworksLLM._extract_generated_text no_float_repr
           (VDict [("choices", VList [VDict [("message", VNone)]])])
         = Raise (TypeError "argument of type 'NoneType' is not iterable")).
Proof. repeat split. Qed.


(** Status 429 with the body [rate limited] gives an error string that
    names both. *)
Lemma call_failures_become_strings_429 :
  E2ENetworksLLM._call no_float_repr script scripted_post default_llm "Hello" None []
    ([Return rate_limited], [])
  = (Return (VStr "Error: HTTP error 429: rate limited"),
     ([], [request_of default_llm "Hello" None []])).
Proof.
  destruct (call_failures_become_strings no_float_repr script scripted_post
              default_llm "Hello" None []
              ([Return rate_limited], [])
              ([], [request_of default_llm "Hello" None []])
              (Return rate_limited) eq_refl eq_refl)
    as [_ [_ [_ [Hhttp _]]]].
  apply (Hhttp rate_limited eq_refl).
  split; [discriminate | reflexivity].
Defined.

(** Status 300 is not 2xx, and the call returns the completion; in
    [app.py] a timeout gives a string that does not start with
    ["Error:"], and a body that is a list leaves [_call] as an
    exception. *)
Lemma error_prefix_is_not_general :
  fst (E2ENetworksLLM._call no_float_repr script scripted_post default_llm
         "Hello" None [] ([Return multiple_choices], []))
  = Return (VStr "hi")
  /\ fst (E2ELLM._call script scripted_post (E2ELLM.__init__ empty_env) "Hello" None
            ([Raise (Timeout "Read timed out.")], []))
     = Return (VStr "Error calling E2E LLM: Read timed out.")
  /\ String.prefix "Error:" "Error calling E2E LLM: Read timed out." = false
  /\ fst (E2ELLM._call script scripted_post (E2ELLM.__init__ empty_env) "Hello" None
            ([Return (ok_response (VList []))], []))
     = Raise (AttributeError "'list' object has no attribute 'get'").
Proof. repeat split. Qed.



(** * Further properties *)


(** ** The payload as a whole *)

Lemma dict_get_In (d : dict) (k : string) (v : value) :
  dict_get d k = Some v -> In (k, v) d.
Proof.
  induction d as [|[k' w] d IH]; simpl; [discriminate|].
  destruct (String.eqb_spec k' k) as [->|Hne].
  - intros [= ->]. now left.
  - intros H. right. auto.
Qed.

Lemma In_dict_get (d : dict) (k : string) (v : value) :
  NoDup (map fst d) -> In (k, v) d -> dict_get d k = Some v.
Proof.
  induction d as [|[k' w] d IH]; simpl; [contradiction|].
  intros Hnd [Heq|Hin].
  - injection Heq as -> ->. now rewrite String.eqb_refl.
  - inversion Hnd as [|? ? Hnotin Hnd']; subst.
    destruct (String.eqb_spec k' k) as [->|Hne]; [|auto].
    exfalso. apply Hnotin. apply (in_map fst) in Hin. exact Hin.
Qed.

Lemma dict_get_permutation (d d' : dict) (k : string) :
  NoDup (map fst d) -> Permutation d d' -> dict_get d k = dict_get d' k.
Proof.
  intros Hnd Hperm.
  assert (NoDup (map fst d')) as Hnd'
    by (eapply Permutation_NoDup; [apply Permutation_map; eassumption | assumption]).
  destruct (dict_get d k) as [v|] eqn:E.
  - symmetry. apply In_dict_get; [assumption|].
    eapply Permutation_in; [eassumption | now apply dict_get_In].
  - destruct (dict_get d' k) as [v'|] eqn:E'; [|reflexivity].
    apply dict_get_In in E'.
    apply (Permutation_in _ (Permutation_sym Hperm)) in E'.
    rewrite (In_dict_get _ _ _ Hnd E') in E. discriminate.
Qed.

Lemma kwargs_ok_permutation (names : list string) (d d' : dict) :
  Permutation d d' -> kwargs_ok names d = true -> kwargs_ok names d' = true.
Proof.
  unfold kwargs_ok. intros Hperm Hok. rewrite forallb_forall in *.
  intros kv Hin. apply Hok.
  eapply Permutation_in; [apply Permutation_sym; eassumption | assumption].
Qed.

Lemma build_at (self : E2ENetworksLLM.instance) (prompt : string)
    (stop : option (list string)) (kwargs : dict) (key : string) :
  kwargs_ok ["self"; "prompt"; "stop"] kwargs = true ->
  dict_get (E2ENetworksLLM.build self prompt stop kwargs) key
  = payload_at self prompt stop kwargs key.
Proof.
  intros Hok. unfold payload_at.
  destruct (String.eqb_spec key "prompt") as [->|Hprompt];
    [apply build_fixed; [discriminate | reflexivity]|].
  destruct (String.eqb_spec key "temperature") as [->|Htemperature];
    [apply build_fixed; [discriminate | reflexivity]|].
  destruct (String.eqb_spec key "max_tokens") as [->|Hmax];
    [apply build_fixed; [discriminate | reflexivity]|].
  destruct (String.eqb_spec key "top_p") as [->|Htop];
    [apply build_fixed; [discriminate | reflexivity]|].
  destruct (String.eqb_spec key "model") as [->|Hmodel];
    [apply build_fixed; [discriminate | reflexivity]|].
  destruct (String.eqb_spec key "stop") as [->|Hstop].
  - assert (dict_get kwargs "stop" = None) as Hnone
      by (apply (kwargs_ok_get _ _ _ Hok); reflexivity).
    unfold E2ENetworksLLM.build. destruct stop as [[|s l]|].
    + apply extras_absent; [reflexivity | assumption].
    + apply extras_keep. reflexivity.
    + apply extras_absent; [reflexivity | assumption].
  - assert (dict_get
              (if E2ENetworksLLM.truthy stop
               then dict_set
                      [("prompt", VStr prompt);
                       ("temperature", dict_get_default kwargs "temperature"
                                         (VFloat (E2ENetworksLLM.temperature self)));
                       ("max_tokens", dict_get_default kwargs "max_tokens"
                                        (VInt (E2ENetworksLLM.max_tokens self)));
                       ("top_p", dict_get_default kwargs "top_p"
                                   (VFloat (E2ENetworksLLM.top_p self)));
                       ("model", VStr (E2ENetworksLLM.model_name self))]
                      "stop" (E2ENetworksLLM.stop_value stop)
               else
                      [("prompt", VStr prompt);
                       ("temperature", dict_get_default kwargs "temperature"
                                         (VFloat (E2ENetworksLLM.temperature self)));
                       ("max_tokens", dict_get_default kwargs "max_tokens"
                                        (VInt (E2ENetworksLLM.max_tokens self)));
                       ("top_p", dict_get_default kwargs "top_p"
                                   (VFloat (E2ENetworksLLM.top_p self)));
                       ("model", VStr (E2ENetworksLLM.model_name self))]) key = None)
      as Hstart.
    { rewrite build_start by assumption. cbn [dict_get].
      destruct (String.eqb_spec "prompt" key); [congruence|].
      destruct (String.eqb_spec "temperature" key); [congruence|].
      destruct (String.eqb_spec "max_tokens" key); [congruence|].
      destruct (String.eqb_spec "top_p" key); [congruence|].
      destruct (String.eqb_spec "model" key); [congruence|]. reflexivity. }
    unfold E2ENetworksLLM.build.
    destruct (dict_get kwargs key) as [v|] eqn:E.
    + apply extras_pass; [assumption | assumption |].
      unfold in_list. cbn [existsb].
      destruct (String.eqb_spec key "temperature"); [congruence|].
      destruct (String.eqb_spec key "max_tokens"); [congruence|].
      destruct (String.eqb_spec key "top_p"); [congruence|]. reflexivity.
    + apply extras_absent; assumption.
Qed.

(** X1: the payload, key by key: the prompt, the three settings (the
    override when there is one), the model, the stop list when it is
    not empty, and under every other key what the overrides hold. *)
Theorem payload_key_by_key (self : E2ENetworksLLM.instance) (prompt : string)
    (stop : option (list string)) (kwargs : dict) :
  kwargs_ok ["self"; "prompt"; "stop"] kwargs = true ->
  exists payload,
    E2ENetworksLLM._build_payload self prompt stop kwargs = Return payload
    /\ forall key, dict_get payload key = payload_at self prompt stop kwargs key.
Proof.
  intros Hok. exists (E2ENetworksLLM.build self prompt stop kwargs).
  split; [now apply build_payload_returns|].
  intros key. now apply build_at.
Qed.

(** X2: the order in which the overrides are given does not change what
    the payload holds under any key. *)
Theorem payload_ignores_override_order (self : E2ENetworksLLM.instance)
    (prompt : string) (stop : option (list string)) (kwargs kwargs' : dict) :
  kwargs_ok ["self"; "prompt"; "stop"] kwargs = true ->
  NoDup (map fst kwargs) ->
  Permutation kwargs kwargs' ->
  exists payload payload',
    E2ENetworksLLM._build_payload self prompt stop kwargs = Return payload
    /\ E2ENetworksLLM._build_payload self prompt stop kwargs' = Return payload'
    /\ forall key, dict_get payload key = dict_get payload' key.
Proof.
  intros Hok Hnd Hperm.
  pose proof (kwargs_ok_permutation _ _ _ Hperm Hok) as Hok'.
  exists (E2ENetworksLLM.build self prompt stop kwargs),
         (E2ENetworksLLM.build self prompt stop kwargs').
  split; [now apply build_payload_returns|].
  split; [now apply build_payload_returns|].
  intros key. rewrite !build_at by assumption.
  unfold payload_at, dict_get_default.
  now rewrite !(dict_get_permutation kwargs kwargs' _ Hnd Hperm).
Qed.

Lemma dict_get_app (p q : dict) (k : string) :
  dict_get (p ++ q)%list k
  = match dict_get p k with Some v => Some v | None => dict_get q k end.
Proof.
  induction p as [|[k' w] p IH]; simpl; [reflexivity|].
  now destruct (String.eqb k' k).
Qed.

Lemma dict_set_new (p : dict) (k : string) (v : value) :
  dict_get p k = None -> dict_set p k v = (p ++ [(k, v)])%list.
Proof.
  induction p as [|[k' w] p IH]; simpl; [reflexivity|].
  destruct (String.eqb k' k); [discriminate|].
  intros H. now rewrite IH.
Qed.

Lemma key_has_value (d : dict) (k : string) :
  In k (map fst d) -> exists v, dict_get d k = Some v.
Proof.
  induction d as [|[k' w] d IH]; simpl; [contradiction|].
  intros [->|Hin].
  - rewrite String.eqb_refl. eauto.
  - destruct (String.eqb k' k); eauto.
Qed.

(** The loop appends the overrides that pass, in their order. *)
Lemma extras_in_order (kwargs : dict) :
  forall payload : dict,
  NoDup (map fst kwargs) ->
  (forall k, In k (map fst kwargs) ->
     dict_in k payload = in_list k ["temperature"; "max_tokens"; "top_p"; "model"]) ->
  fold_left E2ENetworksLLM.add_extra kwargs payload
  = (payload ++ filter passes kwargs)%list.
Proof.
  induction kwargs as [|[k v] kwargs IH]; intros payload Hnd Hkeys;
    cbn [fold_left filter].
  - now rewrite app_nil_r.
  - inversion Hnd as [|? ? Hnotin Hnd']; subst.
    pose proof (Hkeys k (or_introl eq_refl)) as Hk.
    unfold passes at 1. cbn [fst]. unfold E2ENetworksLLM.add_extra.
    destruct (in_list k ["temperature"; "max_tokens"; "top_p"; "model"]) eqn:Hfixed.
    + rewrite Hk. cbn [negb andb]. apply IH; [assumption|].
      intros k' Hin. apply Hkeys. now right.
    + rewrite Hk.
      assert (in_list k ["temperature"; "max_tokens"; "top_p"] = false) as Hknown.
      { unfold in_list in *. cbn [existsb] in *.
        destruct (String.eqb k "temperature"); [discriminate|].
        destruct (String.eqb k "max_tokens"); [discriminate|].
        destruct (String.eqb k "top_p"); [discriminate|]. reflexivity. }
      rewrite Hknown. cbn [negb andb].
      apply dict_in_false in Hk. rewrite (dict_set_new _ _ v Hk).
      rewrite IH; [now rewrite <- app_assoc | assumption |].
      intros k' Hin. rewrite <- (Hkeys k' (or_intror Hin)).
      unfold dict_in. rewrite dict_get_app. cbn [dict_get].
      destruct (String.eqb_spec k k') as [->|Hne]; [contradiction|].
      now destruct (dict_get payload k').
Qed.

(** X3: the payload as a list, the overrides having distinct keys: the
    five fixed fields in their order, then the stop list when it is not
    empty, then the overrides other than the three settings and [model],
    in the order they were given. *)
Theorem payload_in_order (self : E2ENetworksLLM.instance) (prompt : string)
    (stop : option (list string)) (kwargs : dict) :
  kwargs_ok ["self"; "prompt"; "stop"] kwargs = true ->
  NoDup (map fst kwargs) ->
  E2ENetworksLLM._build_payload self prompt stop kwargs
  = Return
      ([("prompt", VStr prompt);
        ("temperature", dict_get_default kwargs "temperature"
                          (VFloat (E2ENetworksLLM.temperature self)));
        ("max_tokens", dict_get_default kwargs "max_tokens"
                         (VInt (E2ENetworksLLM.max_tokens self)));
        ("top_p", dict_get_default kwargs "top_p"
                    (VFloat (E2ENetworksLLM.top_p self)));
        ("model", VStr (E2ENetworksLLM.model_name self))]
       ++ match stop with
          | Some (s :: l) => [("stop", VList (map VStr (s :: l)))]
          | _ => []
          end
       ++ filter passes kwargs)%list.
Proof.
  intros Hok Hnd. rewrite build_payload_returns by assumption. f_equal.
  unfold E2ENetworksLLM.build. rewrite extras_in_order; [| assumption |].
  - destruct stop as [[|s l]|]; reflexivity.
  - intros k Hin. destruct (key_has_value _ _ Hin) as [v Hv].
    assert (k <> "prompt") as Hprompt.
    { intros ->. rewrite (kwargs_ok_get _ _ _ Hok) in Hv by reflexivity. discriminate. }
    assert (k <> "stop") as Hstop.
    { intros ->. rewrite (kwargs_ok_get _ _ _ Hok) in Hv by reflexivity. discriminate. }
    unfold dict_in. rewrite build_start by assumption.
    unfold in_list. cbn [dict_get existsb].
    rewrite (String.eqb_sym k "temperature"), (String.eqb_sym k "max_tokens"),
      (String.eqb_sym k "top_p"), (String.eqb_sym k "model").
    destruct (String.eqb_spec "prompt" k); [congruence|].
    destruct (String.eqb "temperature" k); [reflexivity|].
    destruct (String.eqb "max_tokens" k); [reflexivity|].
    destruct (String.eqb "top_p" k); [reflexivity|].
    destruct (String.eqb "model" k); reflexivity.
Qed.

(** ** The requests a call and a batch send *)

Section Requests.

Variable float_repr : float -> string.
Variable world : Type.
Variable post : world -> request -> Py.result response * world.
Variable text_of_number : value -> option string.
Variable self : E2ENetworksLLM.instance.
Variable stop : option (list string).
Variable kwargs : dict.
Hypothesis kwargs_accepted :
  kwargs_ok ["self"; "prompt"; "stop"; "run_manager"] kwargs = true.

Lemma logged_call (prompt : string) (w : world) (log : list request) :
  E2ENetworksLLM._call float_repr (world * list request) (logged post)
    self prompt stop kwargs (w, log)
  = (fst (E2ENetworksLLM._call float_repr world post self prompt stop kwargs w),
     (snd (E2ENetworksLLM._call float_repr world post self prompt stop kwargs w),
      (log ++ [request_of self prompt stop kwargs])%list)).
Proof.
  destruct (post w (request_of self prompt stop kwargs)) as [sent w'] eqn:Hpost.
  rewrite (call_sends float_repr world post self stop kwargs kwargs_accepted
             prompt w w' sent Hpost).
  apply (call_sends float_repr (world * list request) (logged post) self stop kwargs
           kwargs_accepted prompt (w, log)).
  unfold logged. cbn [fst snd]. now rewrite Hpost.
Qed.



End Requests.

(** X4: a call sends exactly one request, the one made of the instance's
    URL, headers and timeout and of the payload, whatever comes back:
    nothing is sent again after a failure.  What the call returns and
    what it leaves of the world are as without the record. *)
Theorem call_sends_one_request (float_repr : float -> string) (world : Type)
    (post : world -> request -> Py.result response * world)
    (self : E2ENetworksLLM.instance) (prompt : string)
    (stop : option (list string)) (kwargs : dict)
    (w : world) (log : list request) :
  kwargs_ok ["self"; "prompt"; "stop"; "run_manager"] kwargs = true ->
  E2ENetworksLLM._call float_repr (world * list request) (logged post)
    self prompt stop kwargs (w, log)
  = (fst (E2ENetworksLLM._call float_repr world post self prompt stop kwargs w),
     (snd (E2ENetworksLLM._call float_repr world post self prompt stop kwargs w),
      (log ++ [ {| req_url := E2ENetworksLLM.endpoint_url self;
                   req_headers :=
                     [("Content-Type", "application/json");
                      ("Authorization",
                       ("Bearer " ++ E2ENetworksLLM.api_key self)%string);
                      ("Accept", "application/json")];
                   req_json := E2ENetworksLLM.build self prompt stop kwargs;
                   req_timeout := E2ENetworksLLM.timeout self |} ])%list)).
Proof. intros Hok. now apply logged_call. Qed.


(** X6: keyword arguments that name a parameter of [_call] but none of
    [_generate] (a keyword [prompt]) let an empty batch through and make
    every other batch raise [TypeError] at its first prompt, before
    anything is sent. *)
Theorem batch_rejects_keyword_prompt (float_repr : float -> string)
    (world : Type) (post : world -> request -> Py.result response * world)
    (text_of_number : value -> option string)
    (self : E2ENetworksLLM.instance) (stop : option (list string))
    (kwargs : dict) (w : world) :
  kwargs_ok ["self"; "prompts"; "stop"; "run_manager"] kwargs = true ->
  kwargs_ok ["self"; "prompt"; "stop"; "run_manager"] kwargs = false ->
  E2ENetworksLLM._generate float_repr world post text_of_number self [] stop kwargs w
  = (Return {| E2ENetworksLLM.generations := [] |}, w)
  /\ forall prompt rest, exists msg,
       E2ENetworksLLM._generate float_repr world post text_of_number self
         (prompt :: rest) stop kwargs w
       = (Raise (TypeError msg), w).
Proof.
  intros Hgen Hcall. unfold E2ENetworksLLM._generate.
  rewrite (bind_kwargs_ok _ _ _ Hgen). split; [reflexivity|].
  intros prompt rest. cbn [E2ENetworksLLM.generate_loop].
  unfold E2ENetworksLLM._call.
  destruct (bind_kwargs_clash "_call" _ _ Hcall) as [msg ->].
  now exists msg.
Qed.

Lemma loop_from (float_repr : float -> string) (world : Type)
    (post : world -> request -> Py.result response * world)
    (text_of_number : value -> option string)
    (self : E2ENetworksLLM.instance) (stop : option (list string)) (kwargs : dict)
    (prompts : list string) :
  forall (acc generations : list (list E2ENetworksLLM.Generation)) (w w' : world),
  E2ENetworksLLM.generate_loop float_repr world post text_of_number self stop kwargs
    prompts [] w = (Return generations, w') ->
  E2ENetworksLLM.generate_loop float_repr world post text_of_number self stop kwargs
    prompts acc w = (Return (acc ++ generations)%list, w').
Proof.
  assert (forall (acc base generations : list (list E2ENetworksLLM.Generation))
                 (w w' : world),
            E2ENetworksLLM.generate_loop float_repr world post text_of_number
              self stop kwargs prompts base w = (Return generations, w') ->
            E2ENetworksLLM.generate_loop float_repr world post text_of_number
              self stop kwargs prompts (acc ++ base)%list w
            = (Return (acc ++ generations)%list, w'))
    as H.
  { induction prompts as [|prompt rest IH]; intros acc base generations w w';
      cbn [E2ENetworksLLM.generate_loop].
    - intros [= <- <-]. reflexivity.
    - destruct (E2ENetworksLLM._call float_repr world post self prompt stop kwargs w)
        as [[response|e] w1]; [|discriminate].
      destruct (E2ENetworksLLM.new_Generation text_of_number response)
        as [generation|e]; [|discriminate].
      intros Hrest. rewrite <- app_assoc. now apply IH. }
  intros acc generations w w' Hloop.
  specialize (H acc [] generations w w' Hloop). now rewrite app_nil_r in H.
Qed.

Lemma loop_app (float_repr : float -> string) (world : Type)
    (post : world -> request -> Py.result response * world)
    (text_of_number : value -> option string)
    (self : E2ENetworksLLM.instance) (stop : option (list string)) (kwargs : dict)
    (first : list string) :
  forall (second : list string) (acc g1 g2 : list (list E2ENetworksLLM.Generation))
         (w w1 w2 : world),
  E2ENetworksLLM.generate_loop float_repr world post text_of_number self stop kwargs
    first acc w = (Return g1, w1) ->
  E2ENetworksLLM.generate_loop float_repr world post text_of_number self stop kwargs
    second g1 w1 = (Return g2, w2) ->
  E2ENetworksLLM.generate_loop float_repr world post text_of_number self stop kwargs
    (first ++ second) acc w = (Return g2, w2).
Proof.
  induction first as [|prompt rest IH]; intros second acc g1 g2 w w1 w2;
    cbn [E2ENetworksLLM.generate_loop app].
  - intros [= <- <-]. auto.
  - destruct (E2ENetworksLLM._call float_repr world post self prompt stop kwargs w)
      as [[response|e] w']; [|discriminate].
    destruct (E2ENetworksLLM.new_Generation text_of_number response)
      as [generation|e]; [|discriminate].
    apply IH.
Qed.

(** X7: a batch over two lists of prompts put end to end is the batch over
    the first followed, in the world it left, by the batch over the
    second: the generations are those of the two, in that order. *)
Theorem batch_of_concatenation (float_repr : float -> string) (world : Type)
    (post : world -> request -> Py.result response * world)
    (text_of_number : value -> option string)
    (self : E2ENetworksLLM.instance) (first second : list string)
    (stop : option (list string)) (kwargs : dict) (w w1 w2 : world)
    (g1 g2 : list (list E2ENetworksLLM.Generation)) :
  E2ENetworksLLM._generate float_repr world post text_of_number self first stop kwargs w
  = (Return {| E2ENetworksLLM.generations := g1 |}, w1) ->
  E2ENetworksLLM._generate float_repr world post text_of_number self second stop kwargs w1
  = (Return {| E2ENetworksLLM.generations := g2 |}, w2) ->
  E2ENetworksLLM._generate float_repr world post text_of_number self (first ++ second)
    stop kwargs w
  = (Return {| E2ENetworksLLM.generations := (g1 ++ g2)%list |}, w2).
Proof.
  unfold E2ENetworksLLM._generate.
  destruct (bind_kwargs "_generate" ["self"; "prompts"; "stop"; "run_manager"] kwargs)
    as [bound|e]; [|discriminate].
  destruct (E2ENetworksLLM.generate_loop float_repr world post text_of_number
              self stop bound first [] w)
    as [[l1|e1] w1'] eqn:H1; [|discriminate].
  destruct (E2ENetworksLLM.generate_loop float_repr world post text_of_number
              self stop bound second [] w1)
    as [[l2|e2] w2'] eqn:H2; [|discriminate].
  intros [= <- <-] [= <- <-].
  rewrite (loop_app float_repr world post text_of_number self stop bound first second
             [] l1 (l1 ++ l2)%list w w1' w2' H1
             (loop_from float_repr world post text_of_number self stop bound second
                l1 l2 w1' w2' H2)).
  reflexivity.
Qed.

(** ** What a call makes of a response *)

Lemma from_choices_raises_TypeError (v : value) (e : exn) :
  E2ENetworksLLM.from_choices v = Raise e -> exists msg, e = TypeError msg.
Proof.
  destruct v as [|b|z|f|s|l|d].
  1-4: intros [= <-]; eexists; reflexivity.
  - unfold E2ENetworksLLM.from_choices. cbn [py_in bind].
    destruct (contains "choices" s); cbn [py_getitem bind].
    + intros [= <-]. eexists; reflexivity.
    + discriminate.
  - unfold E2ENetworksLLM.from_choices. cbn [py_in bind].
    destruct (existsb (is_str "choices") l); cbn [py_getitem bind].
    + intros [= <-]. eexists; reflexivity.
    + discriminate.
  - intros H. pose proof (from_choices_object d) as Hd. rewrite H in Hd.
    exact (proj2 Hd).
Qed.

Lemma from_fields_raises_TypeError (float_repr : float -> string)
    (fields : list string) (v : value) (e : exn) :
  E2ENetworksLLM.from_fields float_repr fields v = Raise e ->
  exists msg, e = TypeError msg.
Proof.
  induction fields as [|f fields IH]; cbn [E2ENetworksLLM.from_fields];
    [discriminate|].
  destruct v as [|b|z|f0|s|l|d]; cbn [py_in bind].
  1-4: intros [= <-]; eexists; reflexivity.
  - destruct (contains f s); cbn [py_getitem bind].
    + intros [= <-]. eexists; reflexivity.
    + exact IH.
  - destruct (existsb (is_str f) l); cbn [py_getitem bind].
    + intros [= <-]. eexists; reflexivity.
    + exact IH.
  - unfold dict_in. cbn [py_getitem].
    destruct (dict_get d f); cbn [bind]; [discriminate | exact IH].
Qed.

Lemma extract_raises_TypeError (float_repr : float -> string) (v : value) (e : exn) :
  E2ENetworksLLM._extract_generated_text float_repr v = Raise e ->
  exists msg, e = TypeError msg.
Proof.
  unfold E2ENetworksLLM._extract_generated_text.
  destruct (E2ENetworksLLM.from_choices v) as [[generated|]|e'] eqn:Hchoices;
    cbn [bind].
  - discriminate.
  - destruct (E2ENetworksLLM.from_fields float_repr E2ENetworksLLM.text_fields v)
      as [[generated|]|e'] eqn:Hfields; cbn [bind]; try discriminate.
    intros [= <-]. eapply from_fields_raises_TypeError; eassumption.
  - intros [= <-]. eapply from_choices_raises_TypeError; eassumption.
Qed.

(** X8: when the response has a status outside 400..599 and a body that
    is JSON, whatever JSON value it is, the call returns what the
    normaliser returns, or, when the normaliser raises, the string
    ["Error: Unexpected error: "] followed by the message of its
    [TypeError]; none of the four other error strings can come out. *)
Theorem call_on_a_json_body (float_repr : float -> string) (world : Type)
    (post : world -> request -> Py.result response * world)
    (self : E2ENetworksLLM.instance) (prompt : string)
    (stop : option (list string)) (kwargs : dict)
    (w w' : world) (r : response) (body : value) :
  kwargs_ok ["self"; "prompt"; "stop"; "run_manager"] kwargs = true ->
  post w (request_of self prompt stop kwargs) = (Return r, w') ->
  raise_for_status r = Return tt ->
  json r = Return body ->
  (exists generated,
     E2ENetworksLLM._extract_generated_text float_repr body = Return generated
     /\ E2ENetworksLLM._call float_repr world post self prompt stop kwargs w
        = (Return generated, w'))
  \/ (exists msg,
        E2ENetworksLLM._extract_generated_text float_repr body = Raise (TypeError msg)
        /\ E2ENetworksLLM._call float_repr world post self prompt stop kwargs w
           = (Return (VStr ("Error: Unexpected error: " ++ msg)), w')).
Proof.
  intros Hok Hpost Hstatus Hjson.
  rewrite (call_sends float_repr world post self stop kwargs Hok prompt w w' _ Hpost).
  unfold E2ENetworksLLM.attempt. cbn [bind]. rewrite Hstatus, Hjson. cbn [bind].
  destruct (E2ENetworksLLM._extract_generated_text float_repr body)
    as [generated|e] eqn:Hextract.
  - left. eauto.
  - right. destruct (extract_raises_TypeError float_repr body e Hextract) as [msg ->].
    exists msg. split; reflexivity.
Qed.

(** X9: on a response object without ["choices"] whose ["response"], or
    else whose ["text"], is a string, the wrapper of [app.py] and
    [E2ENetworksLLM] extract the same string. *)
Theorem the_two_wrappers_agree (float_repr : float -> string) (r : response)
    (d : dict) (s : string) :
  raise_for_status r = Return tt ->
  json r = Return (VDict d) ->
  dict_get d "choices" = None ->
  dict_get d "response" = Some (VStr s)
  \/ (dict_get d "response" = None /\ dict_get d "text" = Some (VStr s)) ->
  E2ENetworksLLM.attempt float_repr (Return r) = Return (VStr s)
  /\ E2ELLM.attempt (Return r) = Return (VStr s).
Proof.
  intros Hstatus Hjson Hchoices Hfield.
  assert (object_choice d = true) as Hobj
    by (unfold object_choice; now rewrite Hchoices).
  split.
  - unfold E2ENetworksLLM.attempt. cbn [bind]. rewrite Hstatus, Hjson. cbn [bind].
    rewrite (extract_of_objects float_repr d Hobj).
    unfold extract_spec, chosen, top_level. rewrite Hchoices.
    cbn [E2ENetworksLLM.text_fields first_present].
    destruct Hfield as [Hresponse|[Hresponse Htext]].
    + now rewrite Hresponse.
    + now rewrite Hresponse, Htext.
  - unfold E2ELLM.attempt. cbn [bind]. rewrite Hstatus, Hjson.
    cbn [bind E2ELLM.py_get]. unfold dict_get_default.
    destruct Hfield as [Hresponse|[Hresponse Htext]].
    + now rewrite Hresponse.
    + now rewrite Hresponse, Htext.
Qed.

(** ** The session of app.py *)

(** [initialize_session_state] assigns the two keys only when they are
    absent: what a session already holds is kept, a second call changes
    nothing even under another environment, and after a call both keys
    are there. *)
Theorem initialization_happens_once (env env' : string -> option string)
    (s : App.session_state) :
  App.initialize_session_state env' (App.initialize_session_state env s)
  = App.initialize_session_state env s
  /\ (forall ms, App.messages s = Some ms ->
        App.messages (App.initialize_session_state env s) = Some ms)
  /\ (forall the_llm, App.llm s = Some the_llm ->
        App.llm (App.initialize_session_state env s) = Some the_llm)
  /\ exists ms the_llm,
       App.initialize_session_state env s
       = {| App.messages := Some ms; App.llm := Some the_llm |}.
Proof.
  destruct s as [[ms|] [the_llm|]]; unfold App.initialize_session_state; cbn;
    (split; [reflexivity|]); (split; [now intros ? [= <-] | ]);
    (split; [now intros ? [= <-] | ]); eexists; eexists; reflexivity.
Qed.

Lemma paired_app_bounded (n : nat) :
  forall ms tail, (List.length ms <= n)%nat -> App.paired ms = true ->
  App.paired (ms ++ tail) = App.paired tail.
Proof.
  induction n as [|n IH]; intros ms tail Hlen Hp.
  - destruct ms; [reflexivity | simpl in Hlen; lia].
  - destruct ms as [|u [|a rest]]; [reflexivity | discriminate |].
    cbn [App.paired app] in *.
    apply andb_true_iff in Hp as [Hroles Hrest]. rewrite Hroles. cbn [andb].
    apply IH; [simpl in Hlen; lia | assumption].
Qed.

Lemma paired_exchange (ms : list App.message) (u a : App.message) :
  App.paired ms = true -> App.role u = "user" -> App.role a = "assistant" ->
  App.paired (ms ++ [u; a]) = true.
Proof.
  intros Hp Hu Ha. rewrite (paired_app_bounded (List.length ms)); auto.
  cbn [App.paired]. now rewrite Hu, Ha.
Qed.

Lemma paired_counts_bounded (n : nat) :
  forall ms, (List.length ms <= n)%nat -> App.paired ms = true ->
  App.count_role "user" ms = App.count_role "assistant" ms
  /\ List.length ms = (App.count_role "user" ms + App.count_role "assistant" ms)%nat.
Proof.
  induction n as [|n IH]; intros ms Hlen Hp.
  - destruct ms; [split; reflexivity | simpl in Hlen; lia].
  - destruct ms as [|u [|a rest]]; [split; reflexivity | discriminate |].
    cbn [App.paired] in Hp.
    apply andb_true_iff in Hp as [Hroles Hrest].
    apply andb_true_iff in Hroles as [Hu Ha].
    apply String.eqb_eq in Hu. apply String.eqb_eq in Ha.
    destruct (IH rest) as [Hsame Htotal]; [simpl in Hlen; lia | assumption |].
    unfold App.count_role in *. cbn [filter List.length]. rewrite Hu, Ha.
    cbn. rewrite Hsame in *. split; lia.
Qed.

Section ScriptProperties.

Variable world : Type.
Variable post : world -> request -> Py.result response * world.
Variable now : world -> string * world.
Variable env : string -> option string.

Lemma initialized_messages (s : App.session_state) (ms : list App.message) :
  App.messages s = Some ms ->
  App.messages (App.initialize_session_state env s) = Some ms
  /\ exists the_llm, App.llm (App.initialize_session_state env s) = Some the_llm.
Proof.
  destruct s as [[ms'|] [the_llm|]]; cbn; intros [= <-]; split; eauto.
Qed.

(** The exchange on a state that has a history. *)
Lemma exchange_appends (prompt : string) (s : App.session_state) (w : world)
    (ms : list App.message) :
  App.messages s = Some ms ->
  exists t1 response t2 w',
    App.exchange world post now prompt s w
    = ([App.show {| App.role := "user"; App.content := VStr prompt;
                    App.timestamp := t1 |};
        App.show {| App.role := "assistant"; App.content := response;
                    App.timestamp := t2 |}],
       {| App.messages :=
            Some (ms ++ [ {| App.role := "user"; App.content := VStr prompt;
                             App.timestamp := t1 |};
                          {| App.role := "assistant"; App.content := response;
                             App.timestamp := t2 |} ])%list;
          App.llm := App.llm s |},
       w').
Proof.
  intros Hms. unfold App.exchange.
  destruct (now w) as [t1 w1].
  destruct (App.get_llm_response world post _ prompt w1) as [response w2].
  destruct (now w2) as [t2 w3].
  exists t1, response, t2, w3.
  unfold App.append_message. cbn. rewrite Hms. now rewrite <- app_assoc.
Qed.

(** The exchange, from what the clock and the model return. *)
Lemma exchange_exactly (prompt : string) (s : App.session_state) (w : world)
    (ms : list App.message) (the_llm : E2ELLM.instance)
    (t1 t2 : string) (response : value) (w1 w2 w3 : world) :
  App.messages s = Some ms ->
  App.llm s = Some the_llm ->
  now w = (t1, w1) ->
  E2ELLM.get_llm_response world post the_llm prompt w1 = (response, w2) ->
  now w2 = (t2, w3) ->
  App.exchange world post now prompt s w
  = ([App.show {| App.role := "user"; App.content := VStr prompt;
                  App.timestamp := t1 |};
      App.show {| App.role := "assistant"; App.content := response;
                  App.timestamp := t2 |}],
     {| App.messages :=
          Some (ms ++ [ {| App.role := "user"; App.content := VStr prompt;
                           App.timestamp := t1 |};
                        {| App.role := "assistant"; App.content := response;
                           App.timestamp := t2 |} ])%list;
        App.llm := Some the_llm |},
     w3).
Proof.
  intros Hms Hllm Hnow1 Hresponse Hnow2. unfold App.exchange.
  rewrite Hnow1. unfold App.get_llm_response, App.append_message.
  cbn [App.llm App.messages]. rewrite Hllm, Hresponse, Hnow2, Hms.
  now rewrite <- app_assoc.
Qed.

(** A run that gets past the sidebar. *)
Lemma main_shows_a_page (ui : App.widgets) (s s1 : App.session_state) (w : world)
    (ms : list App.message) :
  (if App.update_configuration ui then App.update ui s else Return s) = Return s1 ->
  App.clear_chat_history ui = false ->
  App.messages s1 = Some ms ->
  App.main world post now env ui s w
  = match App.chat_input ui with
    | Some (String c rest) =>
        let '(said, s3, w') :=
          App.exchange world post now (String c rest)
            (App.initialize_session_state env s1) w in
        (Return (App.Page
                   {| App.total_messages := List.length ms;
                      App.by_role :=
                        match ms with
                        | [] => None
                        | _ => Some (App.count_role "user" ms,
                                     App.count_role "assistant" ms)
                        end;
                      App.chat := (map App.show ms ++ said)%list |}), s3, w')
    | _ =>
        (Return (App.Page
                   {| App.total_messages := List.length ms;
                      App.by_role :=
                        match ms with
                        | [] => None
                        | _ => Some (App.count_role "user" ms,
                                     App.count_role "assistant" ms)
                        end;
                      App.chat := map App.show ms |}),
         App.initialize_session_state env s1, w)
    end.
Proof.
  intros Hupdate Hclear Hms. unfold App.main.
  rewrite Hupdate, Hclear, Hms.
  destruct (initialized_messages s1 ms Hms) as [Hinit _].
  unfold App.display_chat_messages. rewrite Hinit. reflexivity.
Qed.

Lemma update_keeps_messages (ui : App.widgets) (s s1 : App.session_state) :
  (if App.update_configuration ui then App.update ui s else Return s) = Return s1 ->
  App.messages s1 = App.messages s.
Proof.
  destruct (App.update_configuration ui); [|now intros [= <-]].
  unfold App.update. destruct (App.llm s); [|discriminate].
  now intros [= <-].
Qed.

(** Every run keeps the history made of exchanges. *)
Lemma main_keeps_pairs (ui : App.widgets) (s : App.session_state) (w : world) :
  well_paired s ->
  well_paired (snd (fst (App.main world post now env ui s w))).
Proof.
  intros Hinv.
  destruct (if App.update_configuration ui then App.update ui s else Return s)
    as [s1|e] eqn:Hupdate.
  - pose proof (update_keeps_messages ui s s1 Hupdate) as Hsame.
    destruct (App.clear_chat_history ui) eqn:Hclear.
    + unfold App.main. rewrite Hupdate, Hclear. reflexivity.
    + destruct (App.messages s1) as [ms|] eqn:Hms.
      * rewrite (main_shows_a_page ui s s1 w ms Hupdate Hclear Hms).
        assert (App.paired ms = true) as Hp
          by (unfold well_paired in Hinv; now rewrite <- Hsame in Hinv).
        destruct (initialized_messages s1 ms Hms) as [Hinit _].
        destruct (App.chat_input ui) as [[|c rest]|].
        -- cbn [fst snd]. unfold well_paired. now rewrite Hinit.
        -- destruct (exchange_appends (String c rest) _ w ms Hinit)
             as [t1 [response [t2 [w' ->]]]].
           cbn [fst snd]. unfold well_paired. cbn [App.messages].
           now apply paired_exchange.
        -- cbn [fst snd]. unfold well_paired. now rewrite Hinit.
      * unfold App.main. rewrite Hupdate, Hclear, Hms. cbn [fst snd].
        unfold well_paired. now rewrite Hms.
  - unfold App.main. rewrite Hupdate. exact Hinv.
Qed.

End ScriptProperties.

(** X12: the first run of a new session, the "Clear Chat History" button
    not being pressed, raises [AttributeError]: the sidebar reads the
    state before [initialize_session_state] is called.  Nothing is
    initialised and nothing is sent. *)
Theorem new_session_run_raises (world : Type)
    (post : world -> request -> Py.result response * world)
    (now : world -> string * world) (env : string -> option string)
    (ui : App.widgets) (w : world) :
  App.clear_chat_history ui = false ->
  exists msg,
    App.main world post now env ui App.fresh w
    = (Raise (AttributeError msg), App.fresh, w).
Proof.
  intros Hclear. unfold App.main.
  destruct (App.update_configuration ui); cbn.
  - eexists. reflexivity.
  - rewrite Hclear. eexists. reflexivity.
Qed.

(** X13: pressing "Clear Chat History" (and not "Update Configuration")
    empties the history, keeps the model, sends nothing and asks for a
    rerun, also in a session that has no history yet; the plain run that
    follows shows an empty page and leaves the session initialised. *)
Theorem clearing_starts_the_history (world : Type)
    (post : world -> request -> Py.result response * world)
    (now : world -> string * world) (env : string -> option string)
    (ui : App.widgets) (s : App.session_state) (w : world) :
  App.update_configuration ui = false ->
  App.clear_chat_history ui = true ->
  App.main world post now env ui s w
  = (Return App.Rerun, {| App.messages := Some []; App.llm := App.llm s |}, w)
  /\ forall ui' w',
       App.update_configuration ui' = false ->
       App.clear_chat_history ui' = false ->
       App.chat_input ui' = None ->
       App.main world post now env ui'
         {| App.messages := Some []; App.llm := App.llm s |} w'
       = (Return (App.Page {| App.total_messages := 0; App.by_role := None;
                              App.chat := [] |}),
          {| App.messages := Some [];
             App.llm := Some (match App.llm s with
                              | Some the_llm => the_llm
                              | None => E2ELLM.__init__ env
                              end) |},
          w').
Proof.
  intros Hupdate Hclear. split.
  - unfold App.main. now rewrite Hupdate, Hclear.
  - intros ui' w' Hupdate' Hclear' Hinput. unfold App.main.
    rewrite Hupdate', Hclear', Hinput. cbn.
    destruct (App.llm s); reflexivity.
Qed.

(** X14: in a session that has a history, a run in which a prompt is
    submitted and no button is pressed does not raise.  It stores, after
    the history, the user's message with the prompt and the time read
    first, then the assistant's message with what [get_llm_response]
    returned for the prompt from the session's model (a new [E2ELLM()]
    when the session had none) and the time read after.  The chat shown
    is the whole history as it is stored at the end; the metrics of that
    run are those of the history before the exchange. *)
Theorem a_prompt_adds_one_exchange (world : Type)
    (post : world -> request -> Py.result response * world)
    (now : world -> string * world) (env : string -> option string)
    (ui : App.widgets) (s : App.session_state) (w : world)
    (history : list App.message) (prompt : string)
    (t1 t2 : string) (response : value) (w1 w2 w3 : world) :
  App.update_configuration ui = false ->
  App.clear_chat_history ui = false ->
  App.messages s = Some history ->
  App.chat_input ui = Some prompt ->
  prompt <> "" ->
  let the_llm := match App.llm s with
                 | Some the_llm => the_llm
                 | None => E2ELLM.__init__ env
                 end in
  let user := {| App.role := "user"; App.content := VStr prompt;
                 App.timestamp := t1 |} in
  let assistant := {| App.role := "assistant"; App.content := response;
                      App.timestamp := t2 |} in
  now w = (t1, w1) ->
  E2ELLM.get_llm_response world post the_llm prompt w1 = (response, w2) ->
  now w2 = (t2, w3) ->
  App.main world post now env ui s w
  = (Return (App.Page
               {| App.total_messages := List.length history;
                  App.by_role :=
                    match history with
                    | [] => None
                    | _ => Some (App.count_role "user" history,
                                 App.count_role "assistant" history)
                    end;
                  App.chat := map App.show (history ++ [user; assistant])%list |}),
     {| App.messages := Some (history ++ [user; assistant])%list;
        App.llm := Some the_llm |},
     w3).
Proof.
  intros Hupdate Hclear Hms Hinput Hprompt the_llm user assistant
    Hnow1 Hresponse Hnow2.
  assert ((if App.update_configuration ui then App.update ui s else Return s)
          = Return s) as Hsidebar by now rewrite Hupdate.
  rewrite (main_shows_a_page world post now env ui s s w history Hsidebar Hclear Hms).
  rewrite Hinput. destruct prompt as [|c rest]; [congruence|].
  destruct (initialized_messages env s history Hms) as [Hinit _].
  assert (App.llm (App.initialize_session_state env s) = Some the_llm) as Hllm.
  { subst the_llm. destruct s as [[ms|] [l|]]; cbn in *; congruence. }
  rewrite (exchange_exactly world post now (String c rest) _ w history the_llm
             t1 t2 response w1 w2 w3 Hinit Hllm Hnow1 Hresponse Hnow2).
  now rewrite map_app.
Qed.

Lemma main_page_metrics (world : Type)
    (post : world -> request -> Py.result response * world)
    (now : world -> string * world) (env : string -> option string)
    (ui : App.widgets) (s s' : App.session_state) (w w' : world) (p : App.page) :
  App.main world post now env ui s w = (Return (App.Page p), s', w') ->
  exists ms,
    App.messages s = Some ms
    /\ App.total_messages p = List.length ms
    /\ App.by_role p = match ms with
                       | [] => None
                       | _ => Some (App.count_role "user" ms,
                                    App.count_role "assistant" ms)
                       end.
Proof.
  intros Hmain.
  destruct (if App.update_configuration ui then App.update ui s else Return s)
    as [s1|e] eqn:Hupdate.
  - pose proof (update_keeps_messages ui s s1 Hupdate) as Hsame.
    destruct (App.clear_chat_history ui) eqn:Hclear.
    + unfold App.main in Hmain. rewrite Hupdate, Hclear in Hmain. discriminate.
    + destruct (App.messages s1) as [ms|] eqn:Hms.
      * rewrite (main_shows_a_page world post now env ui s s1 w ms Hupdate Hclear Hms)
          in Hmain.
        exists ms. split; [now symmetry|].
        destruct (App.chat_input ui) as [[|c rest]|].
        -- injection Hmain as <- _ _. split; reflexivity.
        -- destruct (App.exchange world post now (String c rest)
                       (App.initialize_session_state env s1) w) as [[said s3] w3].
           injection Hmain as <- _ _. split; reflexivity.
        -- injection Hmain as <- _ _. split; reflexivity.
      * unfold App.main in Hmain. rewrite Hupdate, Hclear, Hms in Hmain.
        discriminate.
  - unfold App.main in Hmain. rewrite Hupdate in Hmain. discriminate.
Qed.

Lemma run_all_keeps_pairs (world : Type)
    (post : world -> request -> Py.result response * world)
    (now : world -> string * world) (env : string -> option string)
    (uis : list App.widgets) :
  forall s w, well_paired s -> well_paired (fst (run_all world post now env uis s w)).
Proof.
  induction uis as [|ui uis IH]; intros s w Hinv; cbn [run_all]; [exact Hinv|].
  pose proof (main_keeps_pairs world post now env ui s w Hinv) as Hstep.
  destruct (App.main world post now env ui s w) as [[o s'] w'].
  now apply IH.
Qed.

(** X15: whatever the user does from a new session on, run after run,
    the stored history is made of exchanges, a user message followed by
    the assistant's; so on every page shown afterwards the metrics
    "User Messages" and "Bot Responses" are equal and add up to
    "Total Messages". *)
Theorem history_is_made_of_exchanges (world : Type)
    (post : world -> request -> Py.result response * world)
    (now : world -> string * world) (env : string -> option string)
    (uis : list App.widgets) (w : world) :
  well_paired (fst (run_all world post now env uis App.fresh w))
  /\ forall ui p s' w' users bots,
       App.main world post now env ui
         (fst (run_all world post now env uis App.fresh w))
         (snd (run_all world post now env uis App.fresh w))
       = (Return (App.Page p), s', w') ->
       App.by_role p = Some (users, bots) ->
       users = bots /\ App.total_messages p = (users + bots)%nat.
Proof.
  assert (well_paired (fst (run_all world post now env uis App.fresh w))) as Hinv
    by (apply run_all_keeps_pairs; exact I).
  split; [exact Hinv|].
  intros ui p s' w' users bots Hmain Hroles.
  destruct (main_page_metrics world post now env ui _ s' _ w' p Hmain)
    as [ms [Hms [Htotal Hby]]].
  unfold well_paired in Hinv. rewrite Hms in Hinv.
  destruct (paired_counts_bounded (List.length ms) ms (le_n _) Hinv) as [Hsame Hsum].
  rewrite Hby in Hroles. destruct ms as [|m ms']; [discriminate|].
  injection Hroles as <- <-. rewrite Htotal. split; assumption.
Qed.

Section RunRequests.

Variable world : Type.
Variable post : world -> request -> Py.result response * world.
Variable now : world -> string * world.
Variable env : string -> option string.

Lemma exchange_sends_one_request (prompt : string) (s : App.session_state)
    (the_llm : E2ELLM.instance) (w : world) (log : list request) :
  App.llm s = Some the_llm ->
  snd (App.exchange (world * list request) (logged post) (logged_now now)
         prompt s (w, log))
  = (snd (App.exchange world post now prompt s w),
     (log ++ [app_request_of the_llm prompt None])%list)
  /\ App.llm (snd (fst (App.exchange (world * list request) (logged post)
                          (logged_now now) prompt s (w, log))))
     = Some the_llm.
Proof.
  intros Hllm. unfold App.exchange, logged_now. cbn [fst snd].
  destruct (now w) as [t1 w1].
  unfold App.get_llm_response, App.append_message. cbn [App.llm].
  rewrite Hllm.
  unfold E2ELLM.get_llm_response, E2ELLM._call, logged. cbn [fst snd].
  fold (app_request_of the_llm prompt None).
  destruct (post w1 (app_request_of the_llm prompt None)) as [sent w2].
  destruct (E2ELLM.attempt sent) as [v|e].
  - cbn [fst snd]. destruct (now w2) as [t2 w3]. cbn. split; reflexivity.
  - destruct e; cbn [fst snd]; destruct (now w2) as [t2 w3]; cbn;
      split; reflexivity.
Qed.

End RunRequests.

(** X16: a run with "Update Configuration" pressed and a prompt
    submitted sends exactly one request, and it is made of the values
    just entered: the URL and the key of the two inputs, the temperature
    and the maximum of the two sliders, the prompt, a null stop list and
    a timeout of 30 seconds. *)
Theorem updated_configuration_is_used_at_once (world : Type)
    (post : world -> request -> Py.result response * world)
    (now : world -> string * world) (env : string -> option string)
    (ui : App.widgets) (s : App.session_state) (w : world) (log : list request)
    (history : list App.message) (old : E2ELLM.instance) (prompt : string) :
  App.update_configuration ui = true ->
  App.clear_chat_history ui = false ->
  App.messages s = Some history ->
  App.llm s = Some old ->
  App.chat_input ui = Some prompt ->
  prompt <> "" ->
  snd (snd (App.main (world * list request) (logged post) (logged_now now) env
              ui s (w, log)))
  = (log ++ [ {| req_url := App.endpoint_url_input ui;
                 req_headers :=
                   [("Content-Type", "application/json");
                    ("Authorization", ("Bearer " ++ App.api_key_input ui)%string)];
                 req_json :=
                   [("prompt", VStr prompt);
                    ("temperature", VFloat (App.temperature_slider ui));
                    ("max_tokens", VInt (App.max_tokens_slider ui));
                    ("stop", VNone)];
                 req_timeout := 30 |} ])%list.
Proof.
  intros Hupdate Hclear Hms Hllm Hinput Hprompt.
  destruct prompt as [|c rest]; [congruence|].
  unfold App.main. rewrite Hupdate. unfold App.update. rewrite Hllm, Hclear.
  cbn [App.messages]. rewrite Hms.
  unfold App.initialize_session_state, App.display_chat_messages.
  cbn [App.messages App.llm]. rewrite Hinput.
  match goal with
  | |- context [App.exchange _ _ _ ?p ?st (w, log)] =>
      destruct (exchange_sends_one_request world post now p st
                  {| E2ELLM.endpoint_url := App.endpoint_url_input ui;
                     E2ELLM.api_key := App.api_key_input ui;
                     E2ELLM.model_name := E2ELLM.model_name old;
                     E2ELLM.temperature := App.temperature_slider ui;
                     E2ELLM.max_tokens := App.max_tokens_slider ui |}
                  w log eq_refl) as [Hlog _];
      destruct (App.exchange _ _ _ p st (w, log)) as [[said s3] wl]
  end.
  cbn [snd] in *. rewrite Hlog. reflexivity.
Qed.

(** X17: a run sends one request when it shows a page and a prompt was
    submitted, built from the model the session holds at the end of the
    run, and no request in every other case: a run that raises, a
    rerun, a page without a prompt. *)
Theorem a_run_sends_at_most_one_request (world : Type)
    (post : world -> request -> Py.result response * world)
    (now : world -> string * world) (env : string -> option string)
    (ui : App.widgets) (s : App.session_state) (w : world) (log : list request) :
  let run := App.main (world * list request) (logged post) (logged_now now) env
               ui s (w, log) in
  snd (snd run)
  = match fst (fst run), App.chat_input ui, App.llm (snd (fst run)) with
    | Return (App.Page _), Some (String c rest), Some the_llm =>
        (log ++ [app_request_of the_llm (String c rest) None])%list
    | _, _, _ => log
    end.
Proof.
  cbv zeta.
  destruct (if App.update_configuration ui then App.update ui s else Return s)
    as [s1|e] eqn:Hupdate.
  - destruct (App.clear_chat_history ui) eqn:Hclear.
    + unfold App.main. rewrite Hupdate, Hclear. reflexivity.
    + destruct (App.messages s1) as [ms|] eqn:Hms.
      * rewrite (main_shows_a_page (world * list request) (logged post)
                   (logged_now now) env ui s s1 (w, log) ms Hupdate Hclear Hms).
        destruct (initialized_messages env s1 ms Hms) as [Hinit [the_llm Hllm]].
        destruct (App.chat_input ui) as [[|c rest]|].
        -- cbn [fst snd]. reflexivity.
        -- destruct (exchange_sends_one_request world post now (String c rest)
                       (App.initialize_session_state env s1) the_llm w log Hllm)
             as [Hlog Hkept].
           destruct (App.exchange (world * list request) (logged post)
                       (logged_now now) (String c rest)
                       (App.initialize_session_state env s1) (w, log))
             as [[said s3] wl].
           cbn [fst snd] in *. now rewrite Hkept, Hlog.
        -- cbn [fst snd]. reflexivity.
      * unfold App.main. rewrite Hupdate, Hclear, Hms. reflexivity.
  - unfold App.main. rewrite Hupdate. reflexivity.
Qed.

(** X11: a run in which "Clear Chat History" is not pressed never
    removes or changes a stored message: the history at its end is the
    history at its start, followed by nothing or by one exchange, the
    message of role [user] that holds the prompt submitted and then a
    message of role [assistant]; this also when the run raises. *)
Theorem history_only_grows (world : Type)
    (post : world -> request -> Py.result response * world)
    (now : world -> string * world) (env : string -> option string)
    (ui : App.widgets) (s : App.session_state) (w : world)
    (history : list App.message) :
  App.clear_chat_history ui = false ->
  App.messages s = Some history ->
  exists more,
    App.messages (snd (fst (App.main world post now env ui s w)))
    = Some (history ++ more)%list
    /\ (more = []
        \/ exists prompt t1 response t2,
             App.chat_input ui = Some prompt
             /\ more = [ {| App.role := "user"; App.content := VStr prompt;
                            App.timestamp := t1 |};
                         {| App.role := "assistant"; App.content := response;
                            App.timestamp := t2 |} ]).
Proof.
  intros Hclear Hms.
  destruct (if App.update_configuration ui then App.update ui s else Return s)
    as [s1|e] eqn:Hupdate.
  - pose proof (update_keeps_messages ui s s1 Hupdate) as Hsame.
    rewrite Hms in Hsame.
    rewrite (main_shows_a_page world post now env ui s s1 w history Hupdate Hclear
               Hsame).
    destruct (initialized_messages env s1 history Hsame) as [Hinit _].
    destruct (App.chat_input ui) as [[|c rest]|].
    + exists []. cbn [fst snd]. rewrite app_nil_r. auto.
    + destruct (exchange_appends world post now (String c rest) _ w history Hinit)
        as [t1 [response [t2 [w' ->]]]].
      eexists. cbn [fst snd App.messages]. split; [reflexivity|].
      right. exists (String c rest), t1, response, t2. split; reflexivity.
    + exists []. cbn [fst snd]. rewrite app_nil_r. auto.
  - unfold App.main. rewrite Hupdate. exists []. cbn [fst snd].
    rewrite app_nil_r. auto.
Qed.

(** X18: what [E2ENetworksLLM._call] returns is a string, with one
    exception: the value that the first choice of a response object
    gives, its ["text"] or the ["content"] of its ["message"], is
    returned as it is, whatever its type. *)
Theorem call_returns_a_string_or_a_choice (float_repr : float -> string)
    (world : Type) (post : world -> request -> Py.result response * world)
    (self : E2ENetworksLLM.instance) (prompt : string)
    (stop : option (list string)) (kwargs : dict)
    (w w' : world) (sent : Py.result response) (outcome : value) :
  kwargs_ok ["self"; "prompt"; "stop"; "run_manager"] kwargs = true ->
  post w (request_of self prompt stop kwargs) = (sent, w') ->
  E2ENetworksLLM._call float_repr world post self prompt stop kwargs w
  = (Return outcome, w') ->
  (exists s, outcome = VStr s)
  \/ (exists r d, sent = Return r /\ json r = Return (VDict d)
                  /\ chosen d = Some outcome).
Proof.
  intros Hok Hpost.
  rewrite (call_sends float_repr world post self stop kwargs Hok prompt w w' sent Hpost).
  destruct (E2ENetworksLLM.attempt float_repr sent) as [generated|e] eqn:Hattempt.
  - intros [= <-]. unfold E2ENetworksLLM.attempt in Hattempt.
    destruct sent as [r|e]; cbn [bind] in Hattempt; [|discriminate].
    destruct (raise_for_status r); cbn [bind] in Hattempt; [|discriminate].
    destruct (json r) as [body|e] eqn:Hjson; cbn [bind] in Hattempt; [|discriminate].
    unfold E2ENetworksLLM._extract_generated_text in Hattempt.
    destruct (E2ENetworksLLM.from_choices body) as [[early|]|e] eqn:Hchoices;
      cbn [bind] in Hattempt; [| |discriminate].
    + injection Hattempt as <-. right.
      destruct body as [|b|z|f|s|l|d].
      1-4: discriminate Hchoices.
      * unfold E2ENetworksLLM.from_choices in Hchoices. cbn [py_in bind] in Hchoices.
        destruct (contains "choices" s); discriminate Hchoices.
      * unfold E2ENetworksLLM.from_choices in Hchoices. cbn [py_in bind] in Hchoices.
        destruct (existsb (is_str "choices") l); discriminate Hchoices.
      * exists r, d. pose proof (from_choices_object d) as Hd.
        rewrite Hchoices in Hd. now rewrite <- Hd.
    + left.
      destruct (E2ENetworksLLM.from_fields float_repr E2ENetworksLLM.text_fields body)
        as [[direct|]|e] eqn:Hfields; cbn [bind] in Hattempt; [| |discriminate].
      * injection Hattempt as <-.
        clear Hchoices Hjson. revert Hfields.
        generalize E2ENetworksLLM.text_fields as fields.
        induction fields as [|f fields IH]; cbn [E2ENetworksLLM.from_fields];
          [discriminate|].
        destruct (py_in f body) as [[|]|e]; cbn [bind]; [| exact IH | discriminate].
        destruct (py_getitem body f) as [v|e]; cbn [bind]; [|discriminate].
        intros [= <-]. eauto.
      * injection Hattempt as <-. eauto.
  - intros [= <-]. destruct (handle_is_error self e) as [s ->]. eauto.
Qed.

(** X19: when the body is JSON and not an object, [E2ELLM._call] of
    [app.py] raises [AttributeError], and [get_llm_response] returns the
    string ["Error getting response: "] followed by its message. *)
Theorem app_call_on_a_body_that_is_no_object (world : Type)
    (post : world -> request -> Py.result response * world)
    (self : E2ELLM.instance) (prompt : string) (w w' : world)
    (r : response) (body : value) :
  post w (app_request_of self prompt None) = (Return r, w') ->
  raise_for_status r = Return tt ->
  json r = Return body ->
  is_dict body = false ->
  exists msg,
    E2ELLM._call world post self prompt None w = (Raise (AttributeError msg), w')
    /\ E2ELLM.get_llm_response world post self prompt w
       = (VStr ("Error getting response: " ++ msg), w').
Proof.
  intros Hpost Hstatus Hjson Hbody.
  unfold E2ELLM.get_llm_response, E2ELLM._call.
  fold (app_request_of self prompt None). rewrite Hpost.
  unfold E2ELLM.attempt. cbn [bind]. rewrite Hstatus, Hjson. cbn [bind].
  destruct body; try discriminate Hbody; eexists; split; reflexivity.
Qed.

(** * Closed instances of the further properties *)

Lemma payload_key_by_key_seed :
  exists payload,
    E2ENetworksLLM._build_payload default_llm "Hello" (Some ["END"])
      [("seed", VInt 7); ("top_p", VFloat 0.5)] = Return payload
    /\ dict_get payload "seed" = Some (VInt 7)
    /\ dict_get payload "top_p" = Some (VFloat 0.5)
    /\ dict_get payload "stop" = Some (VList [VStr "END"])
    /\ dict_get payload "user" = None.
Proof.
  destruct (payload_key_by_key default_llm "Hello" (Some ["END"])
              [("seed", VInt 7); ("top_p", VFloat 0.5)] eq_refl)
    as [payload [Hbuilt Hat]].
  exists payload. split; [exact Hbuilt|].
  rewrite !Hat. repeat split.
Defined.

Lemma payload_ignores_override_order_swap :
  exists payload payload',
    E2ENetworksLLM._build_payload default_llm "Hello" None
      [("seed", VInt 7); ("temperature", VFloat 0.2)] = Return payload
    /\ E2ENetworksLLM._build_payload default_llm "Hello" None
         [("temperature", VFloat 0.2); ("seed", VInt 7)] = Return payload'
    /\ forall key, dict_get payload key = dict_get payload' key.
Proof.
  apply (payload_ignores_override_order default_llm "Hello" None
           [("seed", VInt 7); ("temperature", VFloat 0.2)]
           [("temperature", VFloat 0.2); ("seed", VInt 7)]).
  - reflexivity.
  - constructor; [|constructor; [|constructor]].
    + intros [H|[]]. discriminate H.
    + intros [].
  - apply perm_swap.
Defined.

Lemma payload_in_order_with_extras :
  E2ENetworksLLM._build_payload default_llm "Hello" (Some ["END"])
    [("seed", VInt 7); ("model", VStr "gpt-4"); ("user", VStr "u1")]
  = Return [("prompt", VStr "Hello"); ("temperature", VFloat 0.7);
            ("max_tokens", VInt 1000); ("top_p", VFloat 0.9);
            ("model", VStr "e2e-llm"); ("stop", VList [VStr "END"]);
            ("seed", VInt 7); ("user", VStr "u1")].
Proof.
  apply (payload_in_order default_llm "Hello" (Some ["END"])
           [("seed", VInt 7); ("model", VStr "gpt-4"); ("user", VStr "u1")]).
  - reflexivity.
  - constructor; [|constructor; [|constructor; [|constructor]]].
    + intros [H|[H|[]]]; discriminate H.
    + intros [H|[]]. discriminate H.
    + intros [].
Defined.

(** One request although the call fails. *)
Lemma call_sends_one_request_on_timeout :
  E2ENetworksLLM._call no_float_repr (script * list request) (logged scripted_post)
    default_llm "Hello" None []
    (([Raise (Timeout "Read timed out.")], []), [])
  = (Return (VStr "Error: Request to E2E LLM timed out after 30 seconds"),
     (([], [request_of default_llm "Hello" None []]),
      [request_of default_llm "Hello" None []])).
Proof.
  apply (call_sends_one_request no_float_repr script scripted_post default_llm
           "Hello" None [] ([Raise (Timeout "Read timed out.")], []) [] eq_refl).
Defined.


Lemma batch_rejects_keyword_prompt_x :
  exists msg,
    E2ENetworksLLM._generate no_float_repr script scripted_post strict_text default_llm
      ["one"; "two"] None [("prompt", VStr "x")] ([], [])
    = (Raise (TypeError msg), ([], [])).
Proof.
  apply (proj2 (batch_rejects_keyword_prompt no_float_repr script scripted_post
                  strict_text default_llm None [("prompt", VStr "x")] ([], [])
                  eq_refl eq_refl)).
Defined.

Lemma batch_of_concatenation_one_two :
  E2ENetworksLLM._generate no_float_repr script scripted_post strict_text default_llm
    (["one"] ++ ["two"]) None []
    ([Return (ok_response (VDict [("response", VStr "A")]));
      Return (ok_response (VDict [("response", VStr "B")]))], [])
  = (Return {| E2ENetworksLLM.generations :=
                 ([[ {| E2ENetworksLLM.text := VStr "A" |} ]]
                  ++ [[ {| E2ENetworksLLM.text := VStr "B" |} ]])%list |},
     ([], [request_of default_llm "one" None [];
           request_of default_llm "two" None []])).
Proof.
  apply (batch_of_concatenation no_float_repr script scripted_post strict_text
           default_llm ["one"] ["two"] None []
           ([Return (ok_response (VDict [("response", VStr "A")]));
             Return (ok_response (VDict [("response", VStr "B")]))], [])
           ([Return (ok_response (VDict [("response", VStr "B")]))],
            [request_of default_llm "one" None []])
           ([], [request_of default_llm "one" None [];
                 request_of default_llm "two" None []])
           [[ {| E2ENetworksLLM.text := VStr "A" |} ]]
           [[ {| E2ENetworksLLM.text := VStr "B" |} ]]
           eq_refl eq_refl).
Defined.

(** A body whose first choice is a number comes back as an unexpected
    error. *)
Lemma call_on_a_json_body_number_choice :
  E2ENetworksLLM._call no_float_repr script scripted_post default_llm "Hello" None []
    ([Return (ok_response (VDict [("choices", VList [VInt 1])]))], [])
  = (Return (VStr "Error: Unexpected error: argument of type 'int' is not iterable"),
     ([], [request_of default_llm "Hello" None []])).
Proof.
  destruct (call_on_a_json_body no_float_repr script scripted_post default_llm
              "Hello" None []
              ([Return (ok_response (VDict [("choices", VList [VInt 1])]))], [])
              ([], [request_of default_llm "Hello" None []])
              (ok_response (VDict [("choices", VList [VInt 1])]))
              (VDict [("choices", VList [VInt 1])])
              eq_refl eq_refl eq_refl eq_refl)
    as [[generated [Hextract _]]|[msg [Hextract Hcall]]].
  - discriminate Hextract.
  - injection Hextract as <-. exact Hcall.
Defined.

Lemma the_two_wrappers_agree_on_text :
  E2ENetworksLLM.attempt no_float_repr
    (Return (ok_response (VDict [("id", VInt 1); ("text", VStr "hi")])))
  = Return (VStr "hi")
  /\ E2ELLM.attempt (Return (ok_response (VDict [("id", VInt 1); ("text", VStr "hi")])))
     = Return (VStr "hi").
Proof.
  apply (the_two_wrappers_agree no_float_repr
           (ok_response (VDict [("id", VInt 1); ("text", VStr "hi")]))
           [("id", VInt 1); ("text", VStr "hi")] "hi" eq_refl eq_refl eq_refl).
  right. split; reflexivity.
Defined.

Lemma new_session_run_raises_idle :
  exists msg,
    App.main script scripted_post fixed_clock empty_env (typing "Hello" idle)
      App.fresh ([], [])
    = (Raise (AttributeError msg), App.fresh, ([], [])).
Proof.
  apply (new_session_run_raises script scripted_post fixed_clock empty_env
           (typing "Hello" idle) ([], []) eq_refl).
Defined.

Lemma clearing_starts_the_history_of_a_new_session :
  App.main script scripted_post fixed_clock empty_env
    {| App.endpoint_url_input := ""; App.api_key_input := "";
       App.temperature_slider := 0.7; App.max_tokens_slider := 1000;
       App.update_configuration := false; App.clear_chat_history := true;
       App.chat_input := None |} App.fresh ([], [])
  = (Return App.Rerun, {| App.messages := Some []; App.llm := None |}, ([], []))
  /\ App.main script scripted_post fixed_clock empty_env idle
       {| App.messages := Some []; App.llm := None |} ([], [])
     = (Return (App.Page {| App.total_messages := 0; App.by_role := None;
                            App.chat := [] |}), started, ([], [])).
Proof.
  destruct (clearing_starts_the_history script scripted_post fixed_clock empty_env
              {| App.endpoint_url_input := ""; App.api_key_input := "";
                 App.temperature_slider := 0.7; App.max_tokens_slider := 1000;
                 App.update_configuration := false; App.clear_chat_history := true;
                 App.chat_input := None |} App.fresh ([], []) eq_refl eq_refl)
    as [Hclear Hnext].
  split; [exact Hclear|].
  exact (Hnext idle ([], []) eq_refl eq_refl eq_refl).
Defined.

(** A prompt in a session that holds one exchange: the two messages are
    kept and the new exchange follows, the endpoint's answer and all. *)
Lemma a_prompt_adds_one_exchange_hello :
  App.main script scripted_post fixed_clock empty_env (typing "Hello" idle)
    greeted ([Return (ok_response (VDict [("response", VStr "Hi again")]))], [])
  = (Return (App.Page
               {| App.total_messages := 2;
                  App.by_role := Some (1%nat, 1%nat);
                  App.chat :=
                    [("user", VStr "Hi", "*2024-05-01 11:59:00*");
                     ("assistant", VStr "Hello!", "*2024-05-01 11:59:01*");
                     ("user", VStr "Hello", "*2024-05-01 12:00:00*");
                     ("assistant", VStr "Hi again", "*2024-05-01 12:00:00*")] |}),
     {| App.messages :=
          Some [ {| App.role := "user"; App.content := VStr "Hi";
                    App.timestamp := "2024-05-01 11:59:00" |};
                 {| App.role := "assistant"; App.content := VStr "Hello!";
                    App.timestamp := "2024-05-01 11:59:01" |};
                 {| App.role := "user"; App.content := VStr "Hello";
                    App.timestamp := "2024-05-01 12:00:00" |};
                 {| App.role := "assistant"; App.content := VStr "Hi again";
                    App.timestamp := "2024-05-01 12:00:00" |} ];
        App.llm := Some (E2ELLM.__init__ empty_env) |},
     ([], [app_request_of (E2ELLM.__init__ empty_env) "Hello" None])).
Proof.
  apply (a_prompt_adds_one_exchange script scripted_post fixed_clock empty_env
           (typing "Hello" idle) greeted
           ([Return (ok_response (VDict [("response", VStr "Hi again")]))], [])
           [ {| App.role := "user"; App.content := VStr "Hi";
                App.timestamp := "2024-05-01 11:59:00" |};
             {| App.role := "assistant"; App.content := VStr "Hello!";
                App.timestamp := "2024-05-01 11:59:01" |} ]
           "Hello" "2024-05-01 12:00:00" "2024-05-01 12:00:00" (VStr "Hi again")
           ([Return (ok_response (VDict [("response", VStr "Hi again")]))], [])
           ([], [app_request_of (E2ELLM.__init__ empty_env) "Hello" None])
           ([], [app_request_of (E2ELLM.__init__ empty_env) "Hello" None])
           eq_refl eq_refl eq_refl eq_refl);
    [discriminate | reflexivity | reflexivity | reflexivity].
Defined.

Lemma updated_configuration_is_used_at_once_example :
  snd (snd (App.main (script * list request) (logged scripted_post)
              (logged_now fixed_clock) empty_env
              {| App.endpoint_url_input := "https://llm.example/v2";
                 App.api_key_input := "new-key";
                 App.temperature_slider := 0.2; App.max_tokens_slider := 500;
                 App.update_configuration := true; App.clear_chat_history := false;
                 App.chat_input := Some "Hello" |}
              started (([], []), [])))
  = [ {| req_url := "https://llm.example/v2";
         req_headers := [("Content-Type", "application/json");
                         ("Authorization", "Bearer new-key")];
         req_json := [("prompt", VStr "Hello"); ("temperature", VFloat 0.2);
                      ("max_tokens", VInt 500); ("stop", VNone)];
         req_timeout := 30 |} ].
Proof.
  apply (updated_configuration_is_used_at_once script scripted_post fixed_clock
           empty_env
           {| App.endpoint_url_input := "https://llm.example/v2";
              App.api_key_input := "new-key";
              App.temperature_slider := 0.2; App.max_tokens_slider := 500;
              App.update_configuration := true; App.clear_chat_history := false;
              App.chat_input := Some "Hello" |}
           started ([], []) [] [] (E2ELLM.__init__ empty_env) "Hello"
           eq_refl eq_refl eq_refl eq_refl eq_refl).
  discriminate.
Defined.

(** In a session that holds one exchange the two messages stay, whether
    the endpoint answers or not. *)
Lemma history_only_grows_hello :
  exists more,
    App.messages (snd (fst (App.main script scripted_post fixed_clock empty_env
                              (typing "Hello" idle) greeted ([], []))))
    = Some ([ {| App.role := "user"; App.content := VStr "Hi";
                 App.timestamp := "2024-05-01 11:59:00" |};
              {| App.role := "assistant"; App.content := VStr "Hello!";
                 App.timestamp := "2024-05-01 11:59:01" |} ] ++ more)%list
    /\ (more = []
        \/ exists prompt t1 response t2,
             Some "Hello" = Some prompt
             /\ more = [ {| App.role := "user"; App.content := VStr prompt;
                            App.timestamp := t1 |};
                         {| App.role := "assistant"; App.content := response;
                            App.timestamp := t2 |} ]).
Proof.
  exact (history_only_grows script scripted_post fixed_clock empty_env
           (typing "Hello" idle) greeted ([], [])
           [ {| App.role := "user"; App.content := VStr "Hi";
                App.timestamp := "2024-05-01 11:59:00" |};
             {| App.role := "assistant"; App.content := VStr "Hello!";
                App.timestamp := "2024-05-01 11:59:01" |} ]
           eq_refl eq_refl).
Defined.

(** A first choice whose ["text"] is null: the call returns [None]. *)
Lemma call_returns_a_string_or_a_choice_null_text :
  exists r d,
    Return (ok_response (VDict [("choices", VList [VDict [("text", VNone)]])]))
    = Return r
    /\ json r = Return (VDict d) /\ chosen d = Some VNone.
Proof.
  destruct (call_returns_a_string_or_a_choice no_float_repr script scripted_post
              default_llm "Hello" None []
              ([Return (ok_response
                          (VDict [("choices", VList [VDict [("text", VNone)]])]))],
               [])
              ([], [request_of default_llm "Hello" None []])
              (Return (ok_response
                         (VDict [("choices", VList [VDict [("text", VNone)]])])))
              VNone eq_refl eq_refl eq_refl)
    as [[s Hs]|Hchoice]; [discriminate Hs | exact Hchoice].
Defined.

Lemma app_call_on_a_body_that_is_a_list :
  exists msg,
    E2ELLM._call script scripted_post (E2ELLM.__init__ empty_env) "Hello" None
      ([Return (ok_response (VList [VStr "hi"]))], [])
    = (Raise (AttributeError msg),
       ([], [app_request_of (E2ELLM.__init__ empty_env) "Hello" None]))
    /\ E2ELLM.get_llm_response script scripted_post (E2ELLM.__init__ empty_env)
         "Hello" ([Return (ok_response (VList [VStr "hi"]))], [])
       = (VStr ("Error getting response: " ++ msg),
          ([], [app_request_of (E2ELLM.__init__ empty_env) "Hello" None])).
Proof.
  apply (app_call_on_a_body_that_is_no_object script scripted_post
           (E2ELLM.__init__ empty_env) "Hello"
           ([Return (ok_response (VList [VStr "hi"]))], [])
           ([], [app_request_of (E2ELLM.__init__ empty_env) "Hello" None])
           (ok_response (VList [VStr "hi"])) (VList [VStr "hi"])
           eq_refl eq_refl eq_refl eq_refl).
Defined.
